(** * Aethelgard shared data models: construction-time validation

    A shallow embedding of [contracts/shared_models.py].  The module declares
    pydantic (v2) models; what the program does is decided by the class
    bodies together with the way pydantic builds an instance:

    - the fields of a class are validated one after the other, in the order
      in which the class body declares them;
    - a field validator receives the value [v] and [info.data], the dict of
      the fields that were validated successfully *before* it;
    - a keyword that is omitted takes the declared default, and the default
      is stored as it is: validators do not run on it;
    - every failure is recorded and validation goes on with the next field;
      the constructor raises when at least one failure was recorded;
    - the instance is its [__dict__], the dict of validated fields.

    Inputs are taken at their declared Python type (pydantic's lax coercion
    of other types, such as the string "5" for an int, is not modelled: such
    a keyword is refused here).  A Python string is held as its UTF-8
    encoding, a sequence of bytes; its length is the number of its code
    points.  The wall clock read by [datetime.utcnow()] is a parameter [now]. *)

From stdpp Require Import gmap strings list fin_maps.
From Stdlib Require Import ZArith QArith.

Local Open Scope Z_scope.
Set Warnings "-register-all".

(** ** Enums *)

Inductive DifficultyLevel := BEGINNER | INTERMEDIATE | ADVANCED.

Inductive Mode := COACH | HYBRID | SOCRATIC.

Inductive Library :=
  CORE_PYTHON | NUMPY | PANDAS | MATPLOTLIB | SEABORN | SCIKIT_LEARN.

Inductive BloomsLevel :=
  REMEMBER | UNDERSTAND | APPLY | ANALYZE | EVALUATE | CREATE.

Inductive QuestionType :=
  MULTIPLE_CHOICE | TRUE_FALSE | FILL_BLANK | CODE_OUTPUT | CODE_WRITING.

Inductive CitationSource := VECTOR | WEB.

#[global] Instance QuestionType_eq_dec : EqDecision QuestionType.
Proof. solve_decision. Defined.

(** [question_type.value] *)
Definition QuestionType_value (q : QuestionType) : string :=
  match q with
  | MULTIPLE_CHOICE => "multiple_choice"
  | TRUE_FALSE => "true_false"
  | FILL_BLANK => "fill_blank"
  | CODE_OUTPUT => "code_output"
  | CODE_WRITING => "code_writing"
  end.

(** ** Nested models that reach the validators as finished instances *)

(** [class GateStatus(BaseModel)] *)
Record GateStatus := mkGateStatus {
  gate_name : string;
  gate_passed : bool;
  gate_details : option string
}.

(** [class Telemetry(BaseModel)].  The float measurements are carried as
    rationals; no validator of this module reads them. *)
Record Telemetry := mkTelemetry {
  run_id : string;
  trace_url : option string;
  model : string;
  provider : string;
  prompt_version : string;
  graph_version : string;
  coverage_score : Q;
  citation_density : Q;
  unique_sources : Z;
  mode_ratio : Q;
  scaffold_depth : Z;
  exec_ok : bool;
  latency_ms : Z;
  tokens : Z
}.

(** [class ValidationIssue(BaseModel)] *)
Record ValidationIssue := mkValidationIssue {
  severity : string;
  category : string;
  message : string;
  suggestion : option string;
  location : option string
}.

(** ** Python values and instances *)

(** The classes whose instances travel inside other models. *)
Inductive ModelClass := AethelgardConceptC | QuestionC | QualityReportC.

#[global] Instance ModelClass_eq_dec : EqDecision ModelClass.
Proof. solve_decision. Defined.

(** The values a keyword argument or a stored field can hold.  An instance
    of a model is its class together with its [__dict__]. *)
Inductive Value :=
| VNone
| VBool (b : bool)
| VInt (z : Z)
| VStr (s : string)
| VStrList (l : list string)
| VQuestionType (q : QuestionType)
| VDifficulty (d : DifficultyLevel)
| VBlooms (b : BloomsLevel)
| VCitationSource (c : CitationSource)
| VGates (l : list GateStatus)
| VTelemetry (t : Telemetry)
| VIssues (l : list ValidationIssue)
| VInstances (l : list (ModelClass * gmap string Value)).

(** [info.data], keyword dicts and [__dict__] are all string-keyed dicts. *)
Abbreviation Dict := (gmap string Value).

(** A validator returns its value or raises [ValueError(msg)]. *)
Inductive Result (A : Type) :=
| Ok (a : A)
| Err (msg : string).
Arguments Ok {A} a.
Arguments Err {A} msg.

#[global] Instance Result_ret : MRet Result := λ A a, Ok a.
#[global] Instance Result_bind : MBind Result := λ A B f m,
  match m with Ok a => f a | Err msg => Err msg end.
#[global] Instance Result_fmap : FMap Result := λ A B f m,
  match m with Ok a => Ok (f a) | Err msg => Err msg end.

(** ** The construction engine *)

(** How a declared type reads a value and stores it back. *)
Record Schema (T : Type) := mkSchema {
  parse : Value → option T;
  unparse : T → Value
}.
Arguments parse {T} _ _.
Arguments unparse {T} _ _.

(** One declared field: its name, its default when it has one, and the
    whole validation of a supplied value against [info.data]. *)
Record Field := mkField {
  f_name : string;
  f_default : option Value;
  f_validate : Value → Dict → Result Value
}.

(** [name: T = Field(default, constraints)] with an optional
    [mode='before'] validator and an optional (after) field validator. *)
Definition field {T} (name : string) (S : Schema T) (default : option T)
    (before : Value → Value) (constraint : T → Result unit)
    (after : T → Dict → Result T) : Field :=
  {| f_name := name;
     f_default := unparse S <$> default;
     f_validate v data :=
       match parse S (before v) with
       | None => Err "Input should be a valid value of the declared type"
       | Some x => _ ← constraint x; unparse S <$> after x data
       end |}.

Definition no_before : Value → Value := id.
Definition no_constraint {T} : T → Result unit := λ _, Ok ().
Definition no_validator {T} : T → Dict → Result T := λ v _, Ok v.

(** The outcome for one field given the keywords and the fields validated so
    far. *)
Definition field_outcome (kw : Dict) (f : Field) (data : Dict) : Result Value :=
  match kw !! f_name f with
  | Some v => f_validate f v data
  | None =>
      match f_default f with
      | Some d => Ok d
      | None => Err "Field required"
      end
  end.

Record State := mkState {
  st_data : Dict;
  st_errors : list (string * string)
}.

Definition validate_field (kw : Dict) (st : State) (f : Field) : State :=
  match field_outcome kw f (st_data st) with
  | Ok v => mkState (<[f_name f := v]> (st_data st)) (st_errors st)
  | Err msg => mkState (st_data st) (st_errors st ++ [(f_name f, msg)])
  end.

Definition validate_fields (kw : Dict) (fs : list Field) (st : State) : State :=
  foldl (validate_field kw) st fs.

(** [model_config]; only [frozen] is used by this module. *)
Record ModelConfig := mkConfig { frozen : bool }.

Definition default_config : ModelConfig := mkConfig false.

Record Model := mkModel {
  model_config : ModelConfig;
  model_fields : list Field
}.

(** The result of calling the class on keywords: the instance, or
    [ValidationError] with the recorded failures. *)
Inductive Construction :=
| Valid (inst : Dict)
| ValidationError (errors : list (string * string)).

Definition model_init (M : Model) (kw : Dict) : Construction :=
  let st := validate_fields kw (model_fields M) (mkState ∅ []) in
  match st_errors st with
  | [] => Valid (st_data st)
  | es => ValidationError es
  end.

(** [name.startswith('_')]: such a name is no field name. *)
Definition starts_with_underscore (name : string) : bool :=
  String.prefix "_" name.

(** What [inst.name = v] does: the value is stored in the instance, an
    exception is raised, or the assignment is passed on to
    [object.__setattr__] without looking at the fields of the model. *)
Inductive Assignment :=
| Stored (inst : Dict)
| Raised (msg : string)
| ObjectSetattr (name : string) (v : Value).

(** [inst.name = v] on an instance of [M].  A name that starts with an
    underscore is no field name: it is passed to [object.__setattr__]
    before the configuration is looked at (no model of the module declares
    private attributes).  Any other name is refused on a frozen model and
    when it is no field; otherwise the value replaces the stored one, and no
    validator runs ([validate_assignment] is off). *)
Definition model_setattr (M : Model) (inst : Dict) (name : string) (v : Value)
    : Assignment :=
  if starts_with_underscore name then ObjectSetattr name v
  else if frozen (model_config M) then Raised "Instance is frozen"
  else if bool_decide (name ∈ f_name <$> model_fields M)
  then Stored (<[name := v]> inst)
  else Raised "object has no such field".

(** ** Declared types *)

Definition int_t : Schema Z :=
  mkSchema Z (λ v, match v with VInt z => Some z | _ => None end) VInt.
Definition bool_t : Schema bool :=
  mkSchema bool (λ v, match v with VBool b => Some b | _ => None end) VBool.
Definition str_t : Schema string :=
  mkSchema string (λ v, match v with VStr s => Some s | _ => None end) VStr.
Definition list_str_t : Schema (list string) :=
  mkSchema _ (λ v, match v with VStrList l => Some l | _ => None end) VStrList.
Definition question_type_t : Schema QuestionType :=
  mkSchema _ (λ v, match v with VQuestionType q => Some q | _ => None end)
    VQuestionType.
Definition difficulty_t : Schema DifficultyLevel :=
  mkSchema _ (λ v, match v with VDifficulty d => Some d | _ => None end)
    VDifficulty.
Definition blooms_t : Schema BloomsLevel :=
  mkSchema _ (λ v, match v with VBlooms b => Some b | _ => None end) VBlooms.
Definition citation_source_t : Schema CitationSource :=
  mkSchema _ (λ v, match v with VCitationSource c => Some c | _ => None end)
    VCitationSource.
Definition gates_t : Schema (list GateStatus) :=
  mkSchema _ (λ v, match v with VGates l => Some l | _ => None end) VGates.
Definition telemetry_t : Schema Telemetry :=
  mkSchema _ (λ v, match v with VTelemetry t => Some t | _ => None end)
    VTelemetry.
Definition issues_t : Schema (list ValidationIssue) :=
  mkSchema _ (λ v, match v with VIssues l => Some l | _ => None end) VIssues.

(** [Optional[T]] *)
Definition optional_t {T} (S : Schema T) : Schema (option T) :=
  mkSchema _
    (λ v, match v with VNone => Some None | _ => Some <$> parse S v end)
    (λ o, match o with None => VNone | Some x => unparse S x end).

(** [Literal[s1, s2, ...]] *)
Definition literal_t (allowed : list string) : Schema string :=
  mkSchema _
    (λ v, match v with
          | VStr s => if bool_decide (s ∈ allowed) then Some s else None
          | _ => None
          end)
    VStr.

(** [List[A | B | ...]] of finished instances of the listed classes. *)
Definition instances_t (classes : list ModelClass)
    : Schema (list (ModelClass * Dict)) :=
  mkSchema _
    (λ v, match v with
          | VInstances l =>
              if forallb (λ i, bool_decide (i.1 ∈ classes)) l
              then Some l else None
          | _ => None
          end)
    VInstances.

(** ** Constraints of [Field(...)] *)

(** [ge=lo, le=hi] *)
Definition ge_le (lo hi : Z) (v : Z) : Result unit :=
  if (lo <=? v) && (v <=? hi) then Ok ()
  else Err "Input should be within the declared bounds".

(** A byte [10xxxxxx] continues a code point begun by an earlier byte. *)
Definition continuation_byte (c : Ascii.ascii) : bool :=
  let n := Ascii.N_of_ascii c in ((128 <=? n) && (n <? 192))%N.

(** [len(s)]: the number of code points of [s], that is the number of bytes
    of its encoding that begin one. *)
Fixpoint str_len (s : string) : nat :=
  match s with
  | EmptyString => 0%nat
  | String c rest =>
      if continuation_byte c then str_len rest else S (str_len rest)
  end.

(** [min_length=lo, max_length=hi] on a string *)
Definition str_length (lo : nat) (hi : option nat) (s : string) : Result unit :=
  if (lo <=? str_len s)%nat
     && from_option (λ h, str_len s <=? h)%nat true hi
  then Ok () else Err "String length out of the declared bounds".

(** [min_length=lo, max_length=hi] on a list *)
Definition list_length {A} (lo hi : nat) (l : list A) : Result unit :=
  if (length l <? lo)%nat then Err "List should have at least min_length items"
  else if (hi <? length l)%nat
  then Err "List should have at most max_length items"
  else Ok ().

(** [pattern=r"^[a-z0-9-]+$"] *)
Definition id_char (c : Ascii.ascii) : bool :=
  let n := Z.of_N (Ascii.N_of_ascii c) in
  ((97 <=? n) && (n <=? 122)) || ((48 <=? n) && (n <=? 57)) || (n =? 45).

Definition id_pattern (s : string) : Result unit :=
  if negb (String.eqb s "") && forallb id_char (String.list_ascii_of_string s)
  then Ok () else Err "String should match pattern".

(** ** Frozen value models *)

(** [class Citation(BaseModel)], [model_config = {"frozen": True}] *)
Definition Citation : Model :=
  mkModel (mkConfig true)
    [ field "source" citation_source_t None no_before no_constraint no_validator;
      field "title" str_t None no_before no_constraint no_validator;
      field "locator" str_t None no_before no_constraint no_validator;
      field "url" (optional_t str_t) (Some None) no_before no_constraint
        no_validator;
      field "license" (optional_t str_t) (Some None) no_before no_constraint
        no_validator ].

(** [class CodeExample(BaseModel)], [model_config = {"frozen": True}] *)
Definition CodeExample : Model :=
  mkModel (mkConfig true)
    [ field "code" str_t None no_before (str_length 10 None) no_validator;
      field "expected_output" (optional_t str_t) (Some None) no_before
        no_constraint no_validator;
      field "runnable" bool_t (Some true) no_before no_constraint no_validator ].

(** ** Timestamps *)

(** [datetime.utcnow().isoformat() + "Z"], the clock reading being [now]. *)
Definition utc_stamp (now : string) : string := now +:+ "Z".

(** The [mode='before'] validators [set_created_at], [set_validated_at] and
    [set_timestamp] share one body: [None] becomes the current time. *)
Definition set_created_at (now : string) (v : Value) : Value :=
  match v with VNone => VStr (utc_stamp now) | _ => v end.
Definition set_validated_at (now : string) (v : Value) : Value :=
  match v with VNone => VStr (utc_stamp now) | _ => v end.
Definition set_timestamp (now : string) (v : Value) : Value :=
  match v with VNone => VStr (utc_stamp now) | _ => v end.

(** ** Question *)

(** [info.data.get('question_type')] *)
Definition data_get_question_type (data : Dict) : option QuestionType :=
  match data !! "question_type" with
  | Some (VQuestionType q) => Some q
  | _ => None
  end.

(** [Question.validate_options]: three guarded checks in sequence, each of
    which may raise; the value is returned unchanged. *)
Definition validate_options (v : option (list string)) (data : Dict)
    : Result (option (list string)) :=
  let question_type := data_get_question_type data in
  _ ← (if decide (question_type = Some MULTIPLE_CHOICE) then
         match v with
         | None | Some [] => Err "multiple_choice requires at least 2 options"
         | Some l =>
             if (length l <? 2)%nat
             then Err "multiple_choice requires at least 2 options"
             else if (6 <? length l)%nat
             then Err "multiple_choice allows maximum 6 options"
             else Ok ()
         end
       else Ok ());
  _ ← (if decide (question_type = Some TRUE_FALSE) then
         if decide (v ≠ Some ["True"; "False"]%string)
         then Err "true_false requires options=['True', 'False']"
         else Ok ()
       else Ok ());
  _ ← (if bool_decide (question_type ∈
                        [Some FILL_BLANK; Some CODE_OUTPUT; Some CODE_WRITING])
       then
         if decide (v ≠ None)
         then Err (from_option QuestionType_value "" question_type
                   +:+ " should not have options")
         else Ok ()
       else Ok ());
  Ok v.

(** [class Question(BaseModel)], fields in the order of the class body. *)
Definition Question (now : string) : Model :=
  mkModel default_config
    [ field "question_id" str_t None no_before id_pattern no_validator;
      field "concept_id" str_t None no_before id_pattern no_validator;
      field "question_text" str_t None no_before (str_length 10 (Some 500%nat))
        no_validator;
      field "question_type" question_type_t None no_before no_constraint
        no_validator;
      field "options" (optional_t list_str_t) (Some None) no_before
        no_constraint validate_options;
      field "correct_answer" str_t None no_before (str_length 1 None)
        no_validator;
      field "difficulty" difficulty_t None no_before no_constraint no_validator;
      field "blooms_level" blooms_t None no_before no_constraint no_validator;
      field "explanation" (optional_t str_t) (Some None) no_before no_constraint
        no_validator;
      field "hints" (optional_t list_str_t) (Some None) no_before no_constraint
        no_validator;
      field "created_at" (optional_t str_t) (Some None) (set_created_at now)
        no_constraint no_validator ].

(** ** QualityReport *)

(** [info.data.get(key, default)] for an int field. *)
Definition data_get_int (data : Dict) (key : string) (default : Z) : Z :=
  match data !! key with
  | Some (VInt z) => z
  | _ => default
  end.

(** [info.data.get('gates', [])] *)
Definition data_get_gates (data : Dict) : list GateStatus :=
  match data !! "gates" with
  | Some (VGates l) => l
  | _ => []
  end.

(** The ten criterion fields, in the order [validate_overall_score] reads
    them. *)
Definition criterion_fields : list string :=
  [ "groundedness_citation_score"; "technical_correctness_score";
    "people_first_pedagogy_score"; "psw_actionability_score";
    "mode_fidelity_score"; "self_paced_scaffolding_score";
    "retrieval_quality_score"; "clarity_score"; "bloom_alignment_score";
    "people_first_language_score" ]%string.

(** [sum(scores)] *)
Definition sum (scores : list Z) : Z := foldr Z.add 0 scores.

(** [QualityReport.validate_overall_score] *)
Definition validate_overall_score (v : Z) (data : Dict) : Result Z :=
  let scores := (λ key, data_get_int data key 0) <$> criterion_fields in
  let total := sum scores in
  if decide (v ≠ total)
  then Err "overall_score must equal sum of criteria scores"
  else Ok v.

Definition core_gates : gset string :=
  {[ "coverage_score"; "citation_density"; "exec_ok"; "scope_ok" ]}%string.

(** [score_pass = overall_score >= 85] *)
Definition score_pass (overall_score : Z) : bool := 85 <=? overall_score.

(** [all(gate.passed for gate in gates if gate.name in core_gates)] *)
Definition gates_pass (gates : list GateStatus) : bool :=
  forallb gate_passed (filter (λ gate, gate_name gate ∈ core_gates) gates).

(** [expected_pass = score_pass and gates_pass] *)
Definition expected_pass (overall_score : Z) (gates : list GateStatus) : bool :=
  score_pass overall_score && gates_pass gates.

(** [QualityReport.validate_passes_quality] *)
Definition validate_passes_quality (v : bool) (data : Dict) : Result bool :=
  let overall_score := data_get_int data "overall_score" 0 in
  let gates := data_get_gates data in
  if decide (v ≠ expected_pass overall_score gates)
  then Err "passes_quality mismatch"
  else Ok v.

(** [class QualityReport(BaseModel)], fields in the order of the class body:
    [overall_score] is declared before the ten criterion scores. *)
Definition QualityReport (now : string) : Model :=
  mkModel default_config
    [ field "item_id" str_t None no_before no_constraint no_validator;
      field "item_type" (literal_t ["content"; "question"]%string) None
        no_before no_constraint no_validator;
      field "overall_score" int_t None no_before (ge_le 0 100)
        validate_overall_score;
      field "groundedness_citation_score" int_t None no_before (ge_le 0 20)
        no_validator;
      field "technical_correctness_score" int_t None no_before (ge_le 0 15)
        no_validator;
      field "people_first_pedagogy_score" int_t None no_before (ge_le 0 15)
        no_validator;
      field "psw_actionability_score" int_t None no_before (ge_le 0 10)
        no_validator;
      field "mode_fidelity_score" int_t None no_before (ge_le 0 10)
        no_validator;
      field "self_paced_scaffolding_score" int_t None no_before (ge_le 0 10)
        no_validator;
      field "retrieval_quality_score" int_t None no_before (ge_le 0 10)
        no_validator;
      field "clarity_score" int_t None no_before (ge_le 0 5) no_validator;
      field "bloom_alignment_score" int_t None no_before (ge_le 0 3)
        no_validator;
      field "people_first_language_score" int_t None no_before (ge_le 0 2)
        no_validator;
      field "gates" gates_t None no_before no_constraint no_validator;
      field "telemetry" telemetry_t None no_before no_constraint no_validator;
      field "issues" issues_t None no_before no_constraint no_validator;
      field "strengths" list_str_t None no_before no_constraint no_validator;
      field "suggestions" list_str_t None no_before no_constraint no_validator;
      field "passes_quality" bool_t None no_before no_constraint
        validate_passes_quality;
      field "validated_at" str_t None (set_validated_at now) no_constraint
        no_validator;
      field "validator_version" str_t (Some "2.0"%string) no_before
        no_constraint no_validator ].

(** ** Batch operations *)

(** [class BatchValidationRequest(BaseModel)] *)
Definition BatchValidationRequest : Model :=
  mkModel default_config
    [ field "items" (instances_t [AethelgardConceptC; QuestionC]) None
        no_before (list_length 1 100) no_validator;
      field "validation_type" (literal_t ["quick"; "full"]%string)
        (Some "full"%string) no_before no_constraint no_validator;
      field "strict" bool_t (Some true) no_before no_constraint no_validator ].

(** [class BatchValidationResponse(BaseModel)] *)
Definition BatchValidationResponse (now : string) : Model :=
  mkModel default_config
    [ field "total_items" int_t None no_before no_constraint no_validator;
      field "passed" int_t None no_before no_constraint no_validator;
      field "failed" int_t None no_before no_constraint no_validator;
      field "reports" (instances_t [QualityReportC]) None no_before
        no_constraint no_validator;
      field "timestamp" str_t None (set_timestamp now) no_constraint
        no_validator ].

(** ** Reference batch handler

    [contracts/api_backend.py] quotes the quality checker's handler for
    [POST /api/v1/content/batch-validate].  The framework builds the
    [BatchValidationRequest] from the request body before the handler runs,
    and answers 422 itself when the body is refused.  Of the handler only
    the loop over [request.items] and the [BatchValidationResponse] call are
    written out below, for a quality checker that returns a report for
    every item: the check of the [Authorization] header, the idempotency
    cache and the wrapping of the result are left out, so these definitions
    say what happens to a refused body and are not used for requests that
    reach the handler. *)

Definition is_empty {A} (l : list A) : bool :=
  match l with [] => true | _ => false end.

(** [bool(v)]: what [if v:] tests.  Enum members are non-empty strings and
    a model instance has neither [__bool__] nor [__len__]. *)
Definition truthy (v : Value) : bool :=
  match v with
  | VNone => false
  | VBool b => b
  | VInt z => negb (z =? 0)
  | VStr s => negb (String.eqb s "")
  | VStrList l => negb (is_empty l)
  | VGates l => negb (is_empty l)
  | VIssues l => negb (is_empty l)
  | VInstances l => negb (is_empty l)
  | VQuestionType _ | VDifficulty _ | VBlooms _ | VCitationSource _
  | VTelemetry _ => true
  end.

(** [if report.passes_quality:] on a report instance: the stored value is
    tested for truth, whatever its type. *)
Definition report_passes_quality (report : Dict) : bool :=
  match report !! "passes_quality" with
  | Some v => truthy v
  | None => false
  end.

(** [request.items] of a request instance. *)
Definition request_items (request : Dict) : list (ModelClass * Dict) :=
  match request !! "items" with
  | Some (VInstances l) => l
  | _ => []
  end.

(** The loop variables [reports], [passed], [failed]. *)
Record Tally := mkTally {
  tally_reports : list Dict;
  tally_passed : Z;
  tally_failed : Z
}.

(** What the endpoint answers: the request body was refused and the handler
    never ran, or the handler ran, called the quality checker on [assessed]
    and built (or failed to build) the response. *)
Inductive EndpointResult :=
| Unprocessable (errors : list (string * string))
| Handled (assessed : list (ModelClass * Dict)) (response : Construction)
| Crashed (msg : string).

Section QualityChecker.
Variable validate_content : Dict → Dict.
Variable validate_question : Dict → Dict.
Variable get_current_timestamp : string.

(** The [isinstance] dispatch of one loop iteration. *)
Definition report_for (item : ModelClass * Dict) : Result Dict :=
  match item.1 with
  | AethelgardConceptC => Ok (validate_content item.2)
  | QuestionC => Ok (validate_question item.2)
  | QualityReportC => Err "name 'report' is not defined"
  end.

(** One iteration: append the report, count it as passed or failed. *)
Definition batch_step (acc : Result Tally) (item : ModelClass * Dict)
    : Result Tally :=
  t ← acc;
  report ← report_for item;
  Ok (if report_passes_quality report
      then mkTally (tally_reports t ++ [report]) (tally_passed t + 1)
                   (tally_failed t)
      else mkTally (tally_reports t ++ [report]) (tally_passed t)
                   (tally_failed t + 1)).

Definition batch_loop (items : list (ModelClass * Dict)) : Result Tally :=
  foldl batch_step (Ok (mkTally [] 0 0)) items.

(** The keywords of the [BatchValidationResponse(...)] call. *)
Definition response_kwargs (items : list (ModelClass * Dict)) (t : Tally)
    : Dict :=
  list_to_map
    [ ("total_items", VInt (Z.of_nat (length items)));
      ("passed", VInt (tally_passed t));
      ("failed", VInt (tally_failed t));
      ("reports", VInstances ((λ r, (QualityReportC, r)) <$> tally_reports t));
      ("timestamp", VStr get_current_timestamp) ]%string.

(** The handler body on a constructed request. *)
Definition batch_validate_handler (now : string) (request : Dict)
    : EndpointResult :=
  let items := request_items request in
  match batch_loop items with
  | Ok t =>
      Handled items
        (model_init (BatchValidationResponse now) (response_kwargs items t))
  | Err msg => Crashed msg
  end.

(** The endpoint on the keywords of a request body. *)
Definition batch_validate_endpoint (now : string) (body : Dict)
    : EndpointResult :=
  match model_init BatchValidationRequest body with
  | ValidationError errors => Unprocessable errors
  | Valid request => batch_validate_handler now request
  end.
End QualityChecker.

(** ** The models of the module and their configuration

    Every class of [contracts/shared_models.py] that derives from
    [BaseModel], with the [model_config] its body declares: the default one
    where the body declares none. *)
Inductive ModelName :=
| CitationM | CodeExampleM | GateStatusM | TelemetryM | AethelgardConceptM
| QuestionM | ValidationIssueM | QualityReportM | BatchValidationRequestM
| BatchValidationResponseM | SuccessResponseM | ErrorResponseM.

Definition all_models : list ModelName :=
  [ CitationM; CodeExampleM; GateStatusM; TelemetryM; AethelgardConceptM;
    QuestionM; ValidationIssueM; QualityReportM; BatchValidationRequestM;
    BatchValidationResponseM; SuccessResponseM; ErrorResponseM ].

Definition declared_config (m : ModelName) : ModelConfig :=
  match m with
  | CitationM => mkConfig true
  | CodeExampleM => mkConfig true
  | GateStatusM | TelemetryM | AethelgardConceptM | QuestionM
  | ValidationIssueM | QualityReportM | BatchValidationRequestM
  | BatchValidationResponseM | SuccessResponseM | ErrorResponseM =>
      default_config
  end.


(** ** Client side: [batch_validate] of [contracts/api_backend.py]

    [BatchValidationRequest(items=items, validation_type="full")] *)
Definition batch_request_kwargs (items : list (ModelClass * Dict)) : Dict :=
  list_to_map [ ("items", VInstances items);
                ("validation_type", VStr "full") ]%string.

Definition batch_request (items : list (ModelClass * Dict)) : Construction :=
  model_init BatchValidationRequest (batch_request_kwargs items).

(** ** The examples of the module *)

Definition example_options : list string :=
  [ "Python creates a labeled container to store the value";
    "Python creates a name that references an object in memory";
    "Python copies the value into a new memory location";
    "Python converts the value to a string" ]%string.

Definition example_question_kwargs : Dict :=
  list_to_map
    [ ("question_id", VStr "q-variables-mc-01");
      ("concept_id", VStr "python-variables-01");
      ("question_text",
       VStr "What happens when you assign a value to a variable in Python?");
      ("question_type", VQuestionType MULTIPLE_CHOICE);
      ("options", VStrList example_options);
      ("correct_answer",
       VStr "Python creates a name that references an object in memory");
      ("difficulty", VDifficulty BEGINNER);
      ("blooms_level", VBlooms UNDERSTAND);
      ("explanation",
       VStr "Variables in Python are names that reference objects, not containers.");
      ("hints",
       VStrList ["Think about the reference model, not the box model"]) ]%string.

(** [example_question()] *)
Definition example_question (now : string) : Construction :=
  model_init (Question now) example_question_kwargs.

Definition example_gates : list GateStatus :=
  [ mkGateStatus "coverage_score" true (Some "0.78 ≥ 0.65");
    mkGateStatus "citation_density" true (Some "1.2 ≥ 1.0");
    mkGateStatus "exec_ok" true (Some "All code executed successfully");
    mkGateStatus "scope_ok" true (Some "All content in approved scope") ]%string.

Definition example_telemetry : Telemetry :=
  mkTelemetry "run_abc123" (Some "https://langsmith.example.com/runs/abc123")
    "gpt-4o-latest" "openai" "v2.3" "v1.0"
    (78 # 100) (12 # 10) 3 (22 # 100) 2 true 1200 1500.

Definition example_issues : list ValidationIssue :=
  [ mkValidationIssue "low" "people_first_language"
      "Consider using 'learner' instead of 'user' for consistency"
      (Some "Replace 'user' with 'learner' in problem statement") None ]%string.

Definition example_quality_report_kwargs : Dict :=
  list_to_map
    [ ("item_id", VStr "python-variables-01");
      ("item_type", VStr "content");
      ("overall_score", VInt 88);
      ("groundedness_citation_score", VInt 18);
      ("technical_correctness_score", VInt 14);
      ("people_first_pedagogy_score", VInt 13);
      ("psw_actionability_score", VInt 9);
      ("mode_fidelity_score", VInt 9);
      ("self_paced_scaffolding_score", VInt 9);
      ("retrieval_quality_score", VInt 9);
      ("clarity_score", VInt 4);
      ("bloom_alignment_score", VInt 2);
      ("people_first_language_score", VInt 1);
      ("gates", VGates example_gates);
      ("telemetry", VTelemetry example_telemetry);
      ("issues", VIssues example_issues);
      ("strengths",
       VStrList [ "Clear PSW structure with concrete examples";
                  "Accurate reference model explanation";
                  "Code examples are runnable and well-chosen";
                  "Citations properly formatted" ]);
      ("suggestions",
       VStrList [ "Add example showing mutable vs immutable behavior";
                  "Include common pitfall: list aliasing" ]);
      ("passes_quality", VBool true);
      ("validated_at", VNone) ]%string.

(** [example_quality_report()] *)
Definition example_quality_report (now : string) : Construction :=
  model_init (QualityReport now) example_quality_report_kwargs.

(** The sum of the ten criterion scores stored in a report. *)
Definition criteria_total (report : Dict) : Z :=
  sum ((λ key, data_get_int report key 0) <$> criterion_fields).

(** The instance a successful construction returns. *)
Definition constructed (c : Construction) : Dict :=
  match c with
  | Valid inst => inst
  | ValidationError _ => ∅
  end.

(** ** Inputs used to exercise the constructors *)

(** The example report with [overall_score=0] and [passes_quality=False];
    its criterion scores still sum to 88. *)
Definition report_sum_mismatch_kwargs : Dict :=
  <["overall_score" := VInt 0]>
    (<["passes_quality" := VBool false]> example_quality_report_kwargs).

(** The boundary tuple (20,15,15,10,10,10,10,5,3,2) with
    [overall_score=100]. *)
Definition boundary_report_kwargs : Dict :=
  list_to_map (zip criterion_fields (VInt <$> [20; 15; 15; 10; 10; 10; 10; 5; 3; 2]))
  ∪ <["overall_score" := VInt 100]> example_quality_report_kwargs.


(** A gate outside the core set, failed. *)
Definition style_gate : GateStatus :=
  mkGateStatus "style_ok" false (Some "informational"%string).

(** A report with score 0, the four core gates passed and the extra gate
    failed. *)
Definition extra_gate_report_kwargs : Dict :=
  <["gates" := VGates (example_gates ++ style_gate :: [])]>
    report_sum_mismatch_kwargs.

(** A report with score 0 and no gate at all. *)
Definition no_gate_report_kwargs : Dict :=
  <["gates" := VGates []]> report_sum_mismatch_kwargs.

(** The example question with a [correct_answer] that is none of its two
    options. *)
Definition wrong_answer_kwargs : Dict :=
  <["options" := VStrList ["A"; "B"]%string]>
    (<["correct_answer" := VStr "C"]> example_question_kwargs).

(** The example question without the [options] keyword. *)
Definition no_options_kwargs : Dict := delete "options" example_question_kwargs.

(** The same as a [true_false] question, again without [options]. *)
Definition true_false_no_options_kwargs : Dict :=
  <["question_type" := VQuestionType TRUE_FALSE]> no_options_kwargs.

(** A [true_false] question with [options=["Yes", "No"]]. *)
Definition yes_no_kwargs : Dict :=
  <["options" := VStrList ["Yes"; "No"]%string]> true_false_no_options_kwargs.

(** A [fill_blank] question supplied with a list of options. *)
Definition fill_blank_with_options_kwargs : Dict :=
  <["question_type" := VQuestionType FILL_BLANK]>
    (<["options" := VStrList ["A"]%string]> example_question_kwargs).

(** The example question with [options=None] spelled out. *)
Definition explicit_none_kwargs : Dict :=
  <["options" := VNone]> example_question_kwargs.

(** The instance built by [example_question()]. *)
Definition example_question_instance : Dict :=
  constructed (example_question "2025-11-06T10:00:00").

(** The report instance built from [report_sum_mismatch_kwargs]. *)
Definition mismatch_report_instance : Dict :=
  constructed
    (model_init (QualityReport "2025-11-06T10:00:00") report_sum_mismatch_kwargs).

(** Batches of one question repeated. *)
Definition question_batch (n : nat) : list (ModelClass * Dict) :=
  replicate n (QuestionC, example_question_instance).

(** [BatchValidationResponse(total_items=1, passed=1, failed=1, reports=[],
    timestamp=None)] *)
Definition inconsistent_batch_kwargs : Dict :=
  list_to_map
    [ ("total_items", VInt 1); ("passed", VInt 1); ("failed", VInt 1);
      ("reports", VInstances []); ("timestamp", VNone) ]%string.

(** The [Citation(...)] of [example_aethelgard_concept()]. *)
Definition example_citation_kwargs : Dict :=
  list_to_map
    [ ("source", VCitationSource VECTOR);
      ("title", VStr "Python Data Model");
      ("locator", VStr "§3.1");
      ("url", VStr "https://docs.python.org/3/reference/datamodel.html");
      ("license", VStr "PSF-2.0") ]%string.

(** ** Acceptance, field by field *)

(** Construction succeeds exactly when no field fails, so acceptance can be
    followed field by field, stopping at the first failure. *)
Fixpoint validate_strict (kw : Dict) (fs : list Field) (data : Dict)
    : option Dict :=
  match fs with
  | [] => Some data
  | f :: fs =>
      match field_outcome kw f data with
      | Ok v => validate_strict kw fs (<[f_name f := v]> data)
      | Err _ => None
      end
  end.

(** ** Relations between two constructions *)

(** Two dicts that agree everywhere but on [gates], where the lists give the
    same verdict. *)
Definition same_but_gates (d d' : Dict) : Prop :=
  (∀ k, k ≠ "gates" → d !! k = d' !! k)
  ∧ gates_pass (data_get_gates d) = gates_pass (data_get_gates d').

(** Two dicts that agree everywhere but on [options]. *)
Definition same_but_options (d d' : Dict) : Prop :=
  ∀ k, k ≠ "options" → d !! k = d' !! k.

(** * Further parts of the module *)

(** ** Required keywords *)

(** The fields of a model that declare no default. *)
Definition required_fields (M : Model) : list string :=
  f_name <$> filter (λ f, f_default f = None) (model_fields M).

(** The maxima declared by [le=...] on the ten criterion fields, in the
    order of [criterion_fields]. *)
Definition criterion_maxima : list Z := [20; 15; 15; 10; 10; 10; 10; 5; 3; 2].

(** ** AethelgardConcept.validate_libraries *)

(** [lib.value] *)
Definition Library_value (lib : Library) : string :=
  match lib with
  | CORE_PYTHON => "core-python"
  | NUMPY => "numpy"
  | PANDAS => "pandas"
  | MATPLOTLIB => "matplotlib"
  | SEABORN => "seaborn"
  | SCIKIT_LEARN => "scikit-learn"
  end.

(** [for lib in Library], in the order of the class body. *)
Definition all_libraries : list Library :=
  [CORE_PYTHON; NUMPY; PANDAS; MATPLOTLIB; SEABORN; SCIKIT_LEARN].

(** [approved = {lib.value for lib in Library}] *)
Definition approved_libraries : gset string :=
  list_to_set (Library_value <$> all_libraries).

(** [AethelgardConcept.validate_libraries], on the list of members the field
    type [List[Library]] hands to it.  A member of a [str] enum hashes and
    compares as its value, so [lib not in approved] looks the value up. *)
Definition validate_libraries (v : list Library) : Result (list Library) :=
  match v with
  | [] => Ok v
  | _ =>
      let approved := approved_libraries in
      let invalid := filter (λ lib, Library_value lib ∉ approved) v in
      match invalid with
      | [] => Ok v
      | _ => Err "Invalid libraries"
      end
  end.

(** ** ErrorResponse and its helper *)

(** [class ErrorResponse(BaseModel)] *)
Definition ErrorResponse (now : string) : Model :=
  mkModel default_config
    [ field "status" (literal_t ["error"]%string) (Some "error"%string)
        no_before no_constraint no_validator;
      field "error" str_t None no_before no_constraint no_validator;
      field "details" (optional_t str_t) (Some None) no_before no_constraint
        no_validator;
      field "code" int_t None no_before no_constraint no_validator;
      field "timestamp" str_t None (set_timestamp now) no_constraint
        no_validator ].

(** The keywords of the [ErrorResponse(...)] call in
    [create_error_response]: [timestamp=None] is passed explicitly. *)
Definition error_response_kwargs (error : string) (code : Z)
    (details : option string) : Dict :=
  list_to_map
    [ ("error", VStr error); ("code", VInt code);
      ("details", unparse (optional_t str_t) details);
      ("timestamp", VNone) ]%string.

(** [create_error_response(error, code, details)]: the instance is built and
    dumped; every field is a plain value, so the dump is the dict of the
    instance. *)
Definition create_error_response (now : string) (error : string) (code : Z)
    (details : option string) : Construction :=
  model_init (ErrorResponse now) (error_response_kwargs error code details).

(** ** Calls with typed arguments *)

(** The ten criterion keywords of a [QualityReport(...)] call. *)
Record CriterionScores := mkScores {
  groundedness_citation_score : Z;
  technical_correctness_score : Z;
  people_first_pedagogy_score : Z;
  psw_actionability_score : Z;
  mode_fidelity_score : Z;
  self_paced_scaffolding_score : Z;
  retrieval_quality_score : Z;
  clarity_score : Z;
  bloom_alignment_score : Z;
  people_first_language_score : Z
}.

(** The ten scores in the order of [criterion_fields]. *)
Definition score_list (c : CriterionScores) : list Z :=
  [ groundedness_citation_score c; technical_correctness_score c;
    people_first_pedagogy_score c; psw_actionability_score c;
    mode_fidelity_score c; self_paced_scaffolding_score c;
    retrieval_quality_score c; clarity_score c; bloom_alignment_score c;
    people_first_language_score c ].

(** [QualityReport(item_id=..., ..., validated_at=...)] with every required
    keyword supplied. *)
Definition quality_report_kwargs (item_id item_type : string)
    (overall_score : Z) (scores : CriterionScores) (gates : list GateStatus)
    (telemetry : Telemetry) (issues : list ValidationIssue)
    (strengths suggestions : list string) (passes_quality : bool)
    (validated_at : option string) : Dict :=
  list_to_map
    ([ ("item_id", VStr item_id); ("item_type", VStr item_type);
       ("overall_score", VInt overall_score) ]%string
     ++ zip criterion_fields (VInt <$> score_list scores)
     ++ [ ("gates", VGates gates); ("telemetry", VTelemetry telemetry);
          ("issues", VIssues issues); ("strengths", VStrList strengths);
          ("suggestions", VStrList suggestions);
          ("passes_quality", VBool passes_quality);
          ("validated_at", unparse (optional_t str_t) validated_at) ]%string).

(** [Question(question_id=..., ...)] with every required keyword supplied;
    [options] is omitted ([None]), spelled out as [None] ([Some None]) or a
    list. *)
Definition question_kwargs (question_id concept_id question_text : string)
    (question_type : QuestionType) (options : option (option (list string)))
    (correct_answer : string) (difficulty : DifficultyLevel)
    (blooms_level : BloomsLevel) : Dict :=
  let base : Dict :=
    list_to_map
      [ ("question_id", VStr question_id); ("concept_id", VStr concept_id);
        ("question_text", VStr question_text);
        ("question_type", VQuestionType question_type);
        ("correct_answer", VStr correct_answer);
        ("difficulty", VDifficulty difficulty);
        ("blooms_level", VBlooms blooms_level) ]%string in
  match options with
  | None => base
  | Some o => <["options" := unparse (optional_t list_str_t) o]> base
  end.

(** [CodeExample(code=code)], the other two keywords left out. *)
Definition code_example_kwargs (code : string) : Dict :=
  {[ "code"%string := VStr code ]}.

(** What [pattern=r"^[a-z0-9-]+$"] asks of a string, character by
    character. *)
Definition lower_digit_or_dash (c : Ascii.ascii) : Prop :=
  let n := Ascii.nat_of_ascii c in
  (97 ≤ n ≤ 122)%nat ∨ (48 ≤ n ≤ 57)%nat ∨ n = 45%nat.

(** ** Reference storage handler

    [contracts/api_backend.py] quotes the backend's handler [store_content]
    over the dict [validated_content_db].  The database is passed in and
    returned. *)

Record StoredContent := mkStored {
  stored_concept : Dict;
  stored_report : Dict
}.

(** What a handler answers: its return value, or [HTTPException]. *)
Inductive HTTPResult (A : Type) :=
| Returned (a : A)
| HTTPException (status : Z) (detail : string).
Arguments Returned {A} a.
Arguments HTTPException {A} status detail.

(** [quality_report.overall_score] of a report instance. *)
Definition report_overall_score (report : Dict) : Z :=
  data_get_int report "overall_score" 0.

(** [concept.concept_id] of a concept instance. *)
Definition concept_id_of (concept : Dict) : string :=
  match concept !! "concept_id" with
  | Some (VStr s) => s
  | _ => ""
  end.

(** [store_content(concept, quality_report)]: the database after the call
    and the [concept_id] of the answer. *)
Definition store_content (db : gmap string StoredContent)
    (concept quality_report : Dict)
    : HTTPResult (gmap string StoredContent * string) :=
  if negb (report_passes_quality quality_report)
  then HTTPException 400 "Content did not pass quality check"
  else if report_overall_score quality_report <? 85
  then HTTPException 400 "Content below quality threshold (need 85+)"
  else Returned (<[concept_id_of concept :=
                     mkStored concept quality_report]> db,
                 concept_id_of concept).

(** * Properties of the construction engine *)

(** Concrete names are told apart by evaluation. *)
Ltac names_apart :=
  apply (proj1 (bool_decide_eq_false _)); vm_compute; reflexivity.

Lemma validate_fields_cons kw f fs st :
  validate_fields kw (f :: fs) st = validate_fields kw fs (validate_field kw st f).
Proof. reflexivity. Qed.

Lemma validate_fields_errors_keep kw fs st :
  st_errors st ≠ [] → st_errors (validate_fields kw fs st) ≠ [].
Proof.
  revert st. induction fs as [|f fs IH]; intros st Hne; [done|].
  rewrite validate_fields_cons. apply IH. unfold validate_field.
  destruct (field_outcome kw f (st_data st)); cbn; [done|].
  by destruct (st_errors st).
Qed.

Lemma validate_fields_strict kw fs st inst :
  st_errors st = [] →
  (st_errors (validate_fields kw fs st) = []
   ∧ st_data (validate_fields kw fs st) = inst)
  ↔ validate_strict kw fs (st_data st) = Some inst.
Proof.
  revert st. induction fs as [|f fs IH]; intros st Hnil.
  - cbn. split; [intros [_ <-]; done | intros [= <-]; done].
  - rewrite validate_fields_cons. cbn [validate_strict].
    unfold validate_field.
    destruct (field_outcome kw f (st_data st)) as [v|msg].
    + by rewrite IH.
    + split; [|done]. intros [Hbad _]. exfalso.
      revert Hbad. apply validate_fields_errors_keep. cbn.
      by destruct (st_errors st).
Qed.

Lemma model_init_Valid M kw inst :
  model_init M kw = Valid inst ↔ validate_strict kw (model_fields M) ∅ = Some inst.
Proof.
  unfold model_init.
  pose proof (validate_fields_strict kw (model_fields M) (mkState ∅ []) inst
                eq_refl) as Hstrict.
  cbn [st_data] in Hstrict. rewrite <- Hstrict.
  destruct (st_errors _).
  - split; [intros [= <-]; done | intros [_ <-]; done].
  - split; [done | intros [? _]; done].
Qed.

Lemma validate_strict_app kw fs1 fs2 data :
  validate_strict kw (fs1 ++ fs2) data
  = validate_strict kw fs1 data ≫= validate_strict kw fs2.
Proof.
  revert data. induction fs1 as [|f fs1 IH]; intros data; cbn; [done|].
  destruct (field_outcome kw f data); [apply IH | done].
Qed.

Lemma validate_strict_step kw f fs data v inst :
  field_outcome kw f data = Ok v →
  validate_strict kw fs (<[f_name f := v]> data) = Some inst →
  validate_strict kw (f :: fs) data = Some inst.
Proof. intros Hf Hrest. cbn [validate_strict]. by rewrite Hf. Qed.

(** A field that is not declared is not stored. *)
Lemma validate_strict_lookup_other kw fs data inst name :
  validate_strict kw fs data = Some inst →
  name ∉ f_name <$> fs →
  inst !! name = data !! name.
Proof.
  revert data. induction fs as [|f fs IH]; intros data; cbn [validate_strict].
  - by intros [= <-].
  - destruct (field_outcome kw f data) as [v|]; [|done].
    rewrite fmap_cons, not_elem_of_cons. intros Hrun [Hne Hnot].
    rewrite (IH _ Hrun Hnot). by apply lookup_insert_ne.
Qed.

(** Splitting an accepted construction at one field: the fields before it
    were accepted and gave [info.data], the field was accepted against it,
    and the fields after it were accepted too. *)
Lemma validate_strict_split kw fs1 f fs2 inst :
  validate_strict kw (fs1 ++ f :: fs2) ∅ = Some inst →
  ∃ data v,
    validate_strict kw fs1 ∅ = Some data
    ∧ field_outcome kw f data = Ok v
    ∧ validate_strict kw fs2 (<[f_name f := v]> data) = Some inst.
Proof.
  rewrite validate_strict_app.
  destruct (validate_strict kw fs1 ∅) as [data|]; [|done]. cbn.
  destruct (field_outcome kw f data) as [v|] eqn:Hf; [|done].
  intros Hrest. by exists data, v.
Qed.

(** What it takes for a declared field to be accepted. *)
Lemma field_outcome_Ok {T} kw name (S : Schema T) default before constraint
    after data v :
  field_outcome kw (field name S default before constraint after) data = Ok v →
  (kw !! name = None ∧ ∃ d, default = Some d ∧ v = unparse S d)
  ∨ (∃ raw x y, kw !! name = Some raw
       ∧ parse S (before raw) = Some x
       ∧ constraint x = Ok ()
       ∧ after x data = Ok y
       ∧ v = unparse S y).
Proof.
  unfold field_outcome, field; cbn.
  destruct (kw !! name) as [raw|].
  - destruct (parse S (before raw)) as [x|] eqn:Hp; [|done].
    destruct (constraint x) as [[]|] eqn:Hc; [|done]. cbn.
    destruct (after x data) as [y|] eqn:Ha; [|done]. cbn.
    intros [= <-]. right. by exists raw, x, y.
  - destruct default as [d|]; [|done]. cbn.
    intros [= <-]. left. split; [done|]. by exists d.
Qed.

Lemma field_outcome_supplied {T} kw name (S : Schema T) default before
    constraint after data raw :
  kw !! name = Some raw →
  field_outcome kw (field name S default before constraint after) data
  = match parse S (before raw) with
    | None => Err "Input should be a valid value of the declared type"
    | Some x => _ ← constraint x; unparse S <$> after x data
    end.
Proof. unfold field_outcome, field; cbn. by intros ->. Qed.

Lemma field_outcome_omitted {T} kw name (S : Schema T) default before
    constraint after data :
  kw !! name = None →
  field_outcome kw (field name S default before constraint after) data
  = match default with
    | Some d => Ok (unparse S d)
    | None => Err "Field required"
    end.
Proof.
  unfold field_outcome, field; cbn. intros ->. by destruct default.
Qed.

(** A failing field makes the whole construction fail, whatever the other
    keywords are. *)
Lemma model_init_field_fails M kw fs1 f fs2 :
  model_fields M = fs1 ++ f :: fs2 →
  (∀ data, ∃ msg, field_outcome kw f data = Err msg) →
  ∃ errors, model_init M kw = ValidationError errors.
Proof.
  intros Hfs Hfail.
  destruct (model_init M kw) as [inst|errors] eqn:Hinit; [|by exists errors].
  apply model_init_Valid in Hinit. rewrite Hfs in Hinit.
  apply validate_strict_split in Hinit as (data & v & _ & Hf & _).
  destruct (Hfail data) as [msg Hmsg]. congruence.
Qed.

(** An accepted construction seen from its [n]-th field: the fields before
    it gave [info.data], the field was accepted against it and its value is
    the one stored, and the fields from [n] on leave [info.data] alone. *)
Lemma model_init_field M kw inst n f :
  model_init M kw = Valid inst →
  model_fields M !! n = Some f →
  f_name f ∉ f_name <$> drop (S n) (model_fields M) →
  ∃ data v,
    validate_strict kw (take n (model_fields M)) ∅ = Some data
    ∧ field_outcome kw f data = Ok v
    ∧ inst !! f_name f = Some v
    ∧ ∀ k, k ∉ f_name <$> drop n (model_fields M) → inst !! k = data !! k.
Proof.
  intros Hinit Hn Hlater. apply model_init_Valid in Hinit.
  rewrite <- (take_drop_middle _ _ _ Hn) in Hinit.
  apply validate_strict_split in Hinit as (data & v & Hpre & Hf & Hpost).
  exists data, v. repeat split; [done | done | |].
  - rewrite (validate_strict_lookup_other _ _ _ _ _ Hpost Hlater).
    apply lookup_insert_eq.
  - intros k. rewrite (drop_S _ _ _ Hn), fmap_cons, not_elem_of_cons.
    intros [Hne Hk].
    rewrite (validate_strict_lookup_other _ _ _ _ _ Hpost Hk).
    by apply lookup_insert_ne.
Qed.

(** Before any field is validated [info.data] is empty, so it only ever
    holds fields declared earlier. *)
Lemma validate_strict_lookup_None kw fs data name :
  validate_strict kw fs ∅ = Some data →
  name ∉ f_name <$> fs →
  data !! name = None.
Proof.
  intros Hrun Hnot.
  by rewrite (validate_strict_lookup_other _ _ _ _ _ Hrun Hnot).
Qed.

(** Two constructions of the same class from different keywords, followed
    in step: if every field that is accepted on the left is accepted on the
    right and keeps the two dicts related, an accepted left construction
    has an accepted right one. *)
Lemma validate_strict_sim (R : Dict → Dict → Prop) kw kw' fs :
  Forall (λ f, ∀ d d' v, R d d' → field_outcome kw f d = Ok v →
            ∃ v', field_outcome kw' f d' = Ok v'
                  ∧ R (<[f_name f := v]> d) (<[f_name f := v']> d')) fs →
  ∀ d d' inst, R d d' → validate_strict kw fs d = Some inst →
    ∃ inst', validate_strict kw' fs d' = Some inst' ∧ R inst inst'.
Proof.
  induction 1 as [|f fs Hf _ IH]; intros d d' inst HR; cbn.
  - intros [= <-]. by exists d'.
  - destruct (field_outcome kw f d) as [v|] eqn:Hv; [|done].
    destruct (Hf d d' v HR Hv) as (v' & -> & HR').
    by apply IH.
Qed.

(** A field without validator is accepted or refused whatever [info.data]
    holds; only its keyword matters. *)
Lemma field_outcome_no_validator {T} kw kw' name (S : Schema T) default before
    constraint d d' :
  kw !! name = kw' !! name →
  field_outcome kw (field name S default before constraint no_validator) d
  = field_outcome kw' (field name S default before constraint no_validator) d'.
Proof. unfold field_outcome, field; cbn. by intros ->. Qed.


(** * QualityReport *)

Lemma validate_overall_score_Ok v data y :
  validate_overall_score v data = Ok y ↔
  y = v ∧ v = sum ((λ key, data_get_int data key 0) <$> criterion_fields).
Proof.
  unfold validate_overall_score. case_decide as Hv.
  - split; [done | intros [_ ?]; done].
  - split; [intros [= <-]; done | intros [-> _]; done].
Qed.

Lemma validate_passes_quality_Ok v data y :
  validate_passes_quality v data = Ok y ↔
  y = v ∧ v = expected_pass (data_get_int data "overall_score" 0)
                            (data_get_gates data).
Proof.
  unfold validate_passes_quality. case_decide as Hv.
  - split; [done | intros [_ ?]; done].
  - split; [intros [= <-]; done | intros [-> _]; done].
Qed.

Lemma QualityReport_overall_score now kw inst :
  model_init (QualityReport now) kw = Valid inst →
  kw !! "overall_score" = Some (VInt 0) ∧ inst !! "overall_score" = Some (VInt 0).
Proof.
  intros Hinit.
  destruct (model_init_field _ _ _ 2%nat _ Hinit eq_refl)
    as (data & v & Hpre & Hf & Hv & _); [names_apart|].
  apply field_outcome_Ok in Hf
    as [(_ & d & [=] & _)|(raw & x & y & Hkw & Hparse & _ & Hafter & ->)].
  destruct raw; try done. cbn in Hparse. simplify_eq.
  apply validate_overall_score_Ok in Hafter as [-> Hsum].
  assert (x = 0) as ->.
  { rewrite Hsum. unfold criterion_fields, data_get_int. cbn [fmap list_fmap].
    rewrite !(validate_strict_lookup_None _ _ _ _ Hpre) by names_apart.
    done. }
  done.
Qed.

Lemma QualityReport_verdict now kw inst :
  model_init (QualityReport now) kw = Valid inst →
  ∃ score gates,
    (kw !! "overall_score" = Some (VInt score)
     ∧ inst !! "overall_score" = Some (VInt score))
    ∧ (kw !! "gates" = Some (VGates gates)
       ∧ inst !! "gates" = Some (VGates gates))
    ∧ kw !! "passes_quality" = Some (VBool (expected_pass score gates))
    ∧ inst !! "passes_quality" = Some (VBool (expected_pass score gates)).
Proof.
  intros Hinit.
  destruct (model_init_field _ _ _ 2%nat _ Hinit eq_refl)
    as (d1 & v1 & _ & Hf1 & Hv1 & _); [names_apart|].
  apply field_outcome_Ok in Hf1
    as [(_ & d & [=] & _)|(raw & score & y & Hkw1 & Hparse & _ & Hafter & ->)].
  destruct raw; try done. cbn in Hparse. simplify_eq.
  apply validate_overall_score_Ok in Hafter as [-> _].
  destruct (model_init_field _ _ _ 13%nat _ Hinit eq_refl)
    as (d2 & v2 & _ & Hf2 & Hv2 & _); [names_apart|].
  apply field_outcome_Ok in Hf2
    as [(_ & d & [=] & _)|(raw & gates & y & Hkw2 & Hparse & _ & [= <-] & ->)].
  destruct raw; try done. cbn in Hparse. simplify_eq.
  destruct (model_init_field _ _ _ 18%nat _ Hinit eq_refl)
    as (data & v3 & _ & Hf3 & Hv3 & Hframe); [names_apart|].
  apply field_outcome_Ok in Hf3
    as [(_ & d & [=] & _)|(raw & p & y & Hkw3 & Hparse & _ & Hafter & ->)].
  destruct raw; try done. cbn in Hparse. simplify_eq.
  apply validate_passes_quality_Ok in Hafter as [-> Hp].
  unfold data_get_int, data_get_gates in Hp.
  rewrite <- !Hframe in Hp by names_apart.
  cbn in Hv1, Hv2, Hv3. rewrite Hv1, Hv2 in Hp. subst p.
  exists score, gates. done.
Qed.

Lemma gates_pass_Forall gates :
  gates_pass gates = true ↔
  ∀ gate, gate ∈ gates → gate_name gate ∈ core_gates → gate_passed gate = true.
Proof.
  unfold gates_pass. induction gates as [|g gates IH].
  - split; [|done]. intros _ gate Hin. by apply elem_of_nil in Hin.
  - rewrite filter_cons. case_decide as Hcore; cbn [forallb].
    + rewrite andb_true_iff, IH. split.
      * intros [Hg Hrest] gate [->|Hin]%elem_of_cons; [done | by apply Hrest].
      * intros Hall. split; [apply Hall; [by left | done]|].
        intros gate Hin. apply Hall. by right.
    + rewrite IH. split.
      * intros Hrest gate [->|Hin]%elem_of_cons; [done | by apply Hrest].
      * intros Hall gate Hin. apply Hall. by right.
Qed.

Lemma gates_pass_app l1 l2 :
  gates_pass (l1 ++ l2) = gates_pass l1 && gates_pass l2.
Proof. unfold gates_pass. by rewrite filter_app, forallb_app. Qed.

Lemma gates_pass_cons_other g gates :
  gate_name g ∉ core_gates → gates_pass (g :: gates) = gates_pass gates.
Proof. intros Hg. unfold gates_pass. by rewrite filter_cons_False. Qed.

Lemma gates_pass_insert_other l1 g l2 :
  gate_name g ∉ core_gates → gates_pass (l1 ++ g :: l2) = gates_pass (l1 ++ l2).
Proof.
  intros Hg. by rewrite !gates_pass_app, gates_pass_cons_other.
Qed.

Lemma gates_pass_no_core gates :
  (∀ gate, gate ∈ gates → gate_name gate ∉ core_gates) → gates_pass gates = true.
Proof. intros Hnone. apply gates_pass_Forall. intros gate Hin Hcore. by destruct (Hnone gate Hin). Qed.

(** Every constructible report has [overall_score = 0]: the validator runs
    before any criterion score is in [info.data], so each lookup falls back
    to its default. *)
Lemma QualityReport_overall_score_zero now kw report :
  model_init (QualityReport now) kw = Valid report →
  report !! "overall_score" = Some (VInt 0).
Proof. intros Hinit. by destruct (QualityReport_overall_score _ _ _ Hinit). Qed.

(** C1: the report must carry [overall_score] equal to the sum of its ten
    criterion scores, and a report violating this must not be constructible.
    Evaluated on the code: [example_quality_report()], whose scores sum to
    its [overall_score] of 88, is refused, and so is the boundary tuple with
    100; the same report with [overall_score=0] is accepted although its
    criterion scores sum to 88. *)
Theorem C1_overall_score_compared_with_empty_data now :
  example_quality_report now
  = ValidationError
      [ ("overall_score", "overall_score must equal sum of criteria scores");
        ("passes_quality", "passes_quality mismatch") ]%string
  ∧ (∃ errors,
       model_init (QualityReport now) boundary_report_kwargs
       = ValidationError errors)
  ∧ ∃ report,
      model_init (QualityReport now) report_sum_mismatch_kwargs = Valid report
      ∧ report !! "overall_score" = Some (VInt 0)
      ∧ criteria_total report = 88.
Proof.
  split; [vm_compute; reflexivity|]. split.
  - eexists. vm_compute. reflexivity.
  - exists (constructed
              (model_init (QualityReport now) report_sum_mismatch_kwargs)).
    split; [|split]; vm_compute; reflexivity.
Qed.

Lemma expected_pass_true score gates :
  expected_pass score gates = true ↔
  85 ≤ score
  ∧ ∀ gate, gate ∈ gates → gate_name gate ∈ core_gates → gate_passed gate = true.
Proof.
  unfold expected_pass, score_pass.
  by rewrite andb_true_iff, Z.leb_le, gates_pass_Forall.
Qed.






(** ** Gates outside the core set *)

Lemma same_but_gates_insert name v d d' :
  name ≠ "gates" →
  same_but_gates d d' →
  same_but_gates (<[name := v]> d) (<[name := v]> d').
Proof.
  intros Hname [Hagree Hgates]. split.
  - intros k Hk. destruct (decide (name = k)) as [->|Hne].
    + by rewrite !lookup_insert_eq.
    + rewrite !lookup_insert_ne by done. by apply Hagree.
  - unfold data_get_gates in *. by rewrite !lookup_insert_ne by done.
Qed.

Lemma same_but_gates_insert_gates l l' d d' :
  gates_pass l = gates_pass l' →
  same_but_gates d d' →
  same_but_gates (<["gates" := VGates l]> d) (<["gates" := VGates l']> d').
Proof.
  intros Hl [Hagree _]. split.
  - intros k Hk. rewrite !lookup_insert_ne by done. by apply Hagree.
  - unfold data_get_gates. by rewrite !lookup_insert_eq.
Qed.

Lemma validate_overall_score_same_but_gates v d d' :
  same_but_gates d d' → validate_overall_score v d = validate_overall_score v d'.
Proof.
  intros [Hagree _]. unfold validate_overall_score, criterion_fields, data_get_int.
  cbn [fmap list_fmap]. by rewrite !Hagree by done.
Qed.

Lemma validate_passes_quality_same_but_gates v d d' :
  same_but_gates d d' →
  validate_passes_quality v d = validate_passes_quality v d'.
Proof.
  intros [Hagree Hgates].
  unfold validate_passes_quality, expected_pass, data_get_int.
  by rewrite Hgates, Hagree by done.
Qed.

(** A field other than [gates] whose validator cannot tell the two dicts
    apart goes the same way on both sides. *)
Lemma same_but_gates_field {T} kw kw' name (S : Schema T) default before
    constraint after :
  name ≠ "gates" →
  kw !! name = kw' !! name →
  (∀ x d d', same_but_gates d d' → after x d = after x d') →
  ∀ d d' v, same_but_gates d d' →
    field_outcome kw (field name S default before constraint after) d = Ok v →
    ∃ v', field_outcome kw' (field name S default before constraint after) d'
          = Ok v'
          ∧ same_but_gates (<[name := v]> d) (<[name := v']> d').
Proof.
  intros Hname Hkw Hafter d d' v HR Hv. exists v. split.
  - rewrite <- Hv. unfold field_outcome, field; cbn. rewrite <- Hkw.
    destruct (kw !! name) as [raw|]; [|done].
    destruct (parse S (before raw)) as [x|]; [|done].
    by rewrite (Hafter x d' d) by (destruct HR as [Ha Hg]; split; [intros; symmetry; by apply Ha | done]).
  - by apply same_but_gates_insert.
Qed.

(** Replacing the gate list by one with the same core verdict does not
    change whether the report is accepted, nor any other stored field. *)
Lemma QualityReport_gates_replace now kw kw' l l' report :
  (∀ k, k ≠ "gates" → kw !! k = kw' !! k) →
  kw !! "gates" = Some (VGates l) →
  kw' !! "gates" = Some (VGates l') →
  gates_pass l = gates_pass l' →
  model_init (QualityReport now) kw = Valid report →
  ∃ report', model_init (QualityReport now) kw' = Valid report'
             ∧ same_but_gates report report'.
Proof.
  intros Hkw Hl Hl' Hpass Hinit. apply model_init_Valid in Hinit.
  eapply (validate_strict_sim same_but_gates kw kw') in Hinit
    as (report' & Hinit' & HR); [| |by split].
  - exists report'. split; [by apply model_init_Valid | done].
  - cbn [model_fields QualityReport].
    repeat (apply Forall_cons; split);
      try (apply same_but_gates_field;
           [done | by apply Hkw
           | first [ done
                   | intros; by apply validate_overall_score_same_but_gates
                   | intros; by apply validate_passes_quality_same_but_gates ]]).
    + intros d d' v HR.
      rewrite (field_outcome_supplied _ _ _ _ _ _ _ _ _ Hl),
              (field_outcome_supplied _ _ _ _ _ _ _ _ _ Hl').
      cbn. intros [= <-]. exists (VGates l'). split; [done|].
      by apply same_but_gates_insert_gates.
    + apply Forall_nil_2.
Qed.

(** C3: a gate whose name is outside the core set does not affect the
    verdict.  With such a gate added to (or removed from) the list, the
    required value of [passes_quality] is the same for every score, the
    report is accepted with the gate exactly when it is accepted without
    it, with the same [passes_quality]; and when the score is at least 85
    and the core gates of the list have passed, the required value is true
    whatever the extra gate says. *)
Theorem C3_non_core_gate_does_not_affect_verdict now kw before gate after
    (Hother : gate_name gate ∉ core_gates)
    (Hgates : kw !! "gates" = Some (VGates (before ++ gate :: after))) :
  (∀ score, expected_pass score (before ++ gate :: after)
            = expected_pass score (before ++ after))
  ∧ (∀ passes,
       (∃ report, model_init (QualityReport now) kw = Valid report
                  ∧ report !! "passes_quality" = Some passes)
       ↔ (∃ report,
            model_init (QualityReport now)
              (<["gates" := VGates (before ++ after)]> kw) = Valid report
            ∧ report !! "passes_quality" = Some passes))
  ∧ (∀ score, 85 ≤ score →
       (∀ g, g ∈ before ++ after →
          gate_name g ∈ core_gates → gate_passed g = true) →
       expected_pass score (before ++ gate :: after) = true).
Proof.
  pose proof (gates_pass_insert_other before gate after Hother) as Hpass.
  split; [|split].
  - intros score. unfold expected_pass. by rewrite Hpass.
  - intros passes. split; intros (report & Hinit & Hp).
    + destruct (QualityReport_gates_replace now kw
                  (<["gates" := VGates (before ++ after)]> kw)
                  _ _ report (λ k Hk, eq_sym (lookup_insert_ne _ _ _ _ (not_eq_sym Hk)))
                  Hgates (lookup_insert_eq _ _ _) Hpass Hinit)
        as (report' & Hinit' & [Hagree _]).
      exists report'. split; [done|]. by rewrite <- Hagree.
    + destruct (QualityReport_gates_replace now
                  (<["gates" := VGates (before ++ after)]> kw) kw
                  _ _ report (λ k Hk, lookup_insert_ne _ _ _ _ (not_eq_sym Hk))
                  (lookup_insert_eq _ _ _) Hgates (eq_sym Hpass) Hinit)
        as (report' & Hinit' & [Hagree _]).
      exists report'. split; [done|]. by rewrite <- Hagree.
  - intros score Hscore Hcore. unfold expected_pass. rewrite Hpass.
    apply expected_pass_true. done.
Qed.

(** The four core gates of the example followed by the failed extra gate. *)
Lemma C3_non_core_gate_witness :
  (gate_name style_gate ∉ core_gates)
  ∧ extra_gate_report_kwargs !! "gates"
    = Some (VGates (example_gates ++ style_gate :: []))
  ∧ (∀ score, expected_pass score (example_gates ++ style_gate :: [])
              = expected_pass score (example_gates ++ []))
  ∧ (∀ score, 85 ≤ score →
       (∀ g, g ∈ example_gates ++ [] →
          gate_name g ∈ core_gates → gate_passed g = true) →
       expected_pass score (example_gates ++ style_gate :: []) = true).
Proof.
  assert (gate_name style_gate ∉ core_gates) as Hother by names_apart.
  assert (extra_gate_report_kwargs !! "gates"
          = Some (VGates (example_gates ++ style_gate :: []))) as Hgates
    by (vm_compute; reflexivity).
  split; [exact Hother|]. split; [exact Hgates|].
  destruct (C3_non_core_gate_does_not_affect_verdict
              "2025-11-06T10:00:00" extra_gate_report_kwargs
              example_gates style_gate [] Hother Hgates)
    as (Hsame & _ & Htrue).
  split; [exact Hsame | exact Htrue].
Defined.

(** C9: core gates that are missing pass vacuously.  When no gate of the
    list carries a core name (the empty list included), the gate conjunct is
    true and the required [passes_quality] is [overall_score >= 85] alone,
    for the validator and for every constructible report. *)
Theorem C9_missing_core_gates_pass_vacuously now kw report gates
    (Hvalid : model_init (QualityReport now) kw = Valid report)
    (Hgates : report !! "gates" = Some (VGates gates))
    (Hnone : ∀ gate, gate ∈ gates → gate_name gate ∉ core_gates) :
  gates_pass gates = true
  ∧ (∀ score, expected_pass score gates = (85 <=? score))
  ∧ (∀ v data, data_get_gates data = gates →
       (validate_passes_quality v data = Ok v
        ↔ v = (85 <=? data_get_int data "overall_score" 0)))
  ∧ ∃ score,
      report !! "overall_score" = Some (VInt score)
      ∧ report !! "passes_quality" = Some (VBool (85 <=? score)).
Proof.
  pose proof (gates_pass_no_core gates Hnone) as Hpass.
  assert (∀ score, expected_pass score gates = (85 <=? score)) as Hexp.
  { intros score. unfold expected_pass, score_pass.
    by rewrite Hpass, andb_true_r. }
  split; [done|]. split; [done|]. split.
  - intros v data Hdata. rewrite validate_passes_quality_Ok, Hdata, Hexp.
    split; [by intros [_ ?] | done].
  - destruct (QualityReport_verdict _ _ _ Hvalid)
      as (score & gates' & [_ Hscore] & [_ Hgates'] & _ & Hpasses).
    assert (gates' = gates) as -> by congruence.
    exists score. by rewrite <- Hexp.
Qed.

(** A report constructed with an empty gate list. *)
Lemma C9_missing_core_gates_witness :
  model_init (QualityReport "2025-11-06T10:00:00") no_gate_report_kwargs
  = Valid (constructed (model_init (QualityReport "2025-11-06T10:00:00")
                          no_gate_report_kwargs))
  ∧ constructed (model_init (QualityReport "2025-11-06T10:00:00")
                   no_gate_report_kwargs) !! "gates" = Some (VGates [])
  ∧ gates_pass [] = true
  ∧ ∀ score, expected_pass score [] = (85 <=? score).
Proof.
  assert (model_init (QualityReport "2025-11-06T10:00:00") no_gate_report_kwargs
          = Valid (constructed (model_init (QualityReport "2025-11-06T10:00:00")
                                  no_gate_report_kwargs)))
    as Hvalid by (vm_compute; reflexivity).
  assert (constructed (model_init (QualityReport "2025-11-06T10:00:00")
                         no_gate_report_kwargs) !! "gates" = Some (VGates []))
    as Hgates by (vm_compute; reflexivity).
  split; [exact Hvalid|]. split; [exact Hgates|].
  destruct (C9_missing_core_gates_pass_vacuously _ _ _ [] Hvalid Hgates)
    as (Hpass & Hexp & _).
  - intros gate Hin. inversion Hin.
  - split; [exact Hpass | exact Hexp].
Defined.

(** * Question *)

Lemma optional_list_str_parse raw o :
  parse (optional_t list_str_t) raw = Some o →
  raw = unparse (optional_t list_str_t) o.
Proof. destruct raw; cbn; intros [= <-]; done. Qed.

(** What [validate_options] accepts, per question type. *)
Lemma Result_bind_Ok {A B} (f : A → Result B) a : Ok a ≫= f = f a.
Proof. reflexivity. Qed.
Lemma Result_bind_Err {A B} (f : A → Result B) msg : Err msg ≫= f = Err msg.
Proof. reflexivity. Qed.

Lemma validate_options_multiple_choice v data y :
  data_get_question_type data = Some MULTIPLE_CHOICE →
  validate_options v data = Ok y ↔
  y = v ∧ ∃ l, v = Some l ∧ (2 ≤ length l ≤ 6)%nat.
Proof.
  intros Hqt. unfold validate_options. rewrite Hqt.
  rewrite (decide_True (P := Some MULTIPLE_CHOICE = Some MULTIPLE_CHOICE)) by done.
  rewrite (decide_False (P := Some MULTIPLE_CHOICE = Some TRUE_FALSE)) by done.
  replace (bool_decide (_ ∈ _)) with false by (vm_compute; reflexivity).
  rewrite !Result_bind_Ok.
  destruct v as [[|o l]|].
  - rewrite Result_bind_Err. split; [done | intros [_ (l & [= <-] & Hlen)]; cbn in Hlen; lia].
  - destruct (Nat.ltb_spec (length (o :: l)) 2) as [Hlt|Hge].
    + rewrite Result_bind_Err. split; [done | intros [_ (l' & [= <-] & Hlen)]; lia].
    + destruct (Nat.ltb_spec 6 (length (o :: l))) as [Hgt|Hle].
      * rewrite Result_bind_Err. split; [done | intros [_ (l' & [= <-] & Hlen)]; lia].
      * rewrite Result_bind_Ok. split; [intros [= <-] | intros [-> _]; done].
        split; [done|]. exists (o :: l). split; [done | lia].
  - rewrite Result_bind_Err. split; [done | intros [_ (l & [=] & _)]].
Qed.

Lemma validate_options_true_false v data y :
  data_get_question_type data = Some TRUE_FALSE →
  validate_options v data = Ok y ↔
  y = v ∧ v = Some ["True"; "False"]%string.
Proof.
  intros Hqt. unfold validate_options. rewrite Hqt.
  rewrite (decide_False (P := Some TRUE_FALSE = Some MULTIPLE_CHOICE)) by done.
  rewrite (decide_True (P := Some TRUE_FALSE = Some TRUE_FALSE)) by done.
  replace (bool_decide (_ ∈ _)) with false by (vm_compute; reflexivity).
  rewrite !Result_bind_Ok.
  case_decide as Hv.
  - rewrite Result_bind_Err. split; [done | intros [_ ?]; done].
  - rewrite !Result_bind_Ok. split; [intros [= <-]; done | intros [-> _]; done].
Qed.

Lemma validate_options_without_options v data y qt :
  data_get_question_type data = Some qt →
  qt ∈ [FILL_BLANK; CODE_OUTPUT; CODE_WRITING] →
  validate_options v data = Ok y ↔ y = v ∧ v = None.
Proof.
  intros Hqt Hin. unfold validate_options. rewrite Hqt.
  assert (qt = FILL_BLANK ∨ qt = CODE_OUTPUT ∨ qt = CODE_WRITING)
    as [-> | [-> | ->]].
  { repeat (apply elem_of_cons in Hin as [->|Hin]; [tauto|]).
    by apply elem_of_nil in Hin. }
  all: rewrite (decide_False (P := Some _ = Some MULTIPLE_CHOICE)) by done.
  all: rewrite (decide_False (P := Some _ = Some TRUE_FALSE)) by done.
  all: replace (bool_decide (_ ∈ _)) with true by (vm_compute; reflexivity).
  all: rewrite !Result_bind_Ok.
  all: case_decide as Hv;
    [ rewrite Result_bind_Err; split; [done | intros [_ ?]; done]
    | rewrite !Result_bind_Ok;
      split; [intros [= <-]; done | intros [-> _]; done] ].
Qed.

(** An accepted question seen from its [options] field: the type was
    supplied and stored, and [options] was either omitted, then [None] is
    stored unchecked, or supplied and accepted by [validate_options] against
    the stored type. *)
Lemma Question_options now kw question :
  model_init (Question now) kw = Valid question →
  ∃ qt,
    kw !! "question_type" = Some (VQuestionType qt)
    ∧ question !! "question_type" = Some (VQuestionType qt)
    ∧ ((kw !! "options" = None ∧ question !! "options" = Some VNone)
       ∨ ∃ o data,
           kw !! "options" = Some (unparse (optional_t list_str_t) o)
           ∧ question !! "options" = Some (unparse (optional_t list_str_t) o)
           ∧ data_get_question_type data = Some qt
           ∧ validate_options o data = Ok o).
Proof.
  intros Hinit.
  destruct (model_init_field _ _ _ 3%nat _ Hinit eq_refl)
    as (d1 & v1 & _ & Hf1 & Hv1 & _); [names_apart|].
  apply field_outcome_Ok in Hf1
    as [(_ & d & [=] & _)|(raw & qt & y & Hkw1 & Hparse & _ & [= <-] & ->)].
  destruct raw; try done. cbn in Hparse. simplify_eq.
  destruct (model_init_field _ _ _ 4%nat _ Hinit eq_refl)
    as (data & v2 & _ & Hf2 & Hv2 & Hframe); [names_apart|].
  cbn in Hv1, Hv2.
  assert (data_get_question_type data = Some qt) as Hqt.
  { unfold data_get_question_type.
    rewrite <- Hframe by names_apart. by rewrite Hv1. }
  exists qt. split; [done|]. split; [done|].
  apply field_outcome_Ok in Hf2
    as [(Hnone & d & [= <-] & ->)|(raw & o & y & Hkw2 & Hparse & _ & Hafter & ->)].
  - by left.
  - right. change (no_before raw) with raw in Hparse.
    apply optional_list_str_parse in Hparse as ->.
    assert (y = o) as ->.
    { unfold validate_options in Hafter.
      repeat (match type of Hafter with
              | context [mbind _ ?m] => destruct m; cbn in Hafter; [|done]
              end).
      by injection Hafter. }
    by exists o, data.
Qed.

Lemma same_but_options_insert name v d d' :
  same_but_options d d' →
  same_but_options (<[name := v]> d) (<[name := v]> d').
Proof.
  intros Hagree k Hk. destruct (decide (name = k)) as [->|Hne].
  - by rewrite !lookup_insert_eq.
  - rewrite !lookup_insert_ne by done. by apply Hagree.
Qed.

(** A field of [Question] other than [options] goes the same way on both
    sides: none of them has a validator that reads [info.data]. *)
Lemma same_but_options_field {T} kw kw' name (S : Schema T) default before
    constraint :
  kw !! name = kw' !! name →
  ∀ d d' v, same_but_options d d' →
    field_outcome kw (field name S default before constraint no_validator) d
    = Ok v →
    ∃ v', field_outcome kw' (field name S default before constraint
                               no_validator) d' = Ok v'
          ∧ same_but_options (<[name := v]> d) (<[name := v']> d').
Proof.
  intros Hkw d d' v HR Hv. exists v. split.
  - by rewrite <- (field_outcome_no_validator kw kw' _ _ _ _ _ d d' Hkw).
  - by apply same_but_options_insert.
Qed.

(** Dropping the [options] keyword from an accepted question leaves it
    accepted, with [None] stored for [options] and every other field as
    before. *)
Lemma Question_options_omitted now kw kw' question :
  (∀ k, k ≠ "options" → kw !! k = kw' !! k) →
  kw' !! "options" = None →
  model_init (Question now) kw = Valid question →
  ∃ question', model_init (Question now) kw' = Valid question'
               ∧ question' !! "options" = Some VNone
               ∧ same_but_options question question'.
Proof.
  intros Hkw Hnone Hinit. apply model_init_Valid in Hinit.
  eapply (validate_strict_sim same_but_options kw kw') in Hinit
    as (question' & Hinit' & HR); [| |done].
  - apply model_init_Valid in Hinit'. exists question'.
    split; [done|]. split; [|done].
    destruct (Question_options _ _ _ Hinit')
      as (qt & _ & _ & [[_ Hstored]|(o & data & Hsupplied & _)]);
      [done | congruence].
  - cbn [model_fields Question].
    repeat (apply Forall_cons; split);
      try (apply same_but_options_field; by apply Hkw).
    + intros d d' v HR _. rewrite (field_outcome_omitted _ _ _ _ _ _ _ _ Hnone).
      exists VNone. split; [done|].
      intros k Hk. rewrite !lookup_insert_ne by done. by apply HR.
    + apply Forall_nil_2.
Qed.

(** [options=None] spelled out reaches the validator, which refuses it for
    a [multiple_choice] question. *)
Lemma Question_explicit_None_refused now kw :
  kw !! "question_type" = Some (VQuestionType MULTIPLE_CHOICE) →
  kw !! "options" = Some VNone →
  ∃ errors, model_init (Question now) kw = ValidationError errors.
Proof.
  intros Htype Hopt.
  destruct (model_init (Question now) kw) as [question|errors] eqn:Hinit;
    [|by exists errors].
  destruct (Question_options _ _ _ Hinit)
    as (qt & Hqt & _ & [[Hnone _]|(o & data & Hsupplied & _ & Hdata & Hok)]);
    [congruence|].
  assert (qt = MULTIPLE_CHOICE) as -> by congruence.
  apply validate_options_multiple_choice in Hok as [_ (l & -> & _)]; [|done].
  rewrite Hopt in Hsupplied. done.
Qed.

(** C10: an omitted [options] keyword bypasses the per-type check.  The
    default [None] is stored without running the validator, so dropping the
    keyword from any accepted question leaves it accepted; the example
    [multiple_choice] question and a [true_false] question are accepted
    without [options]; [options=None] spelled out is refused for a
    [multiple_choice] question. *)
Theorem C10_omitted_options_bypass_the_check now kw
    (Homitted : kw !! "options" = None) :
  (∀ raw question,
     model_init (Question now) (<["options" := raw]> kw) = Valid question →
     ∃ question', model_init (Question now) kw = Valid question'
                  ∧ question' !! "options" = Some VNone)
  ∧ (∃ question,
       model_init (Question now) no_options_kwargs = Valid question
       ∧ question !! "question_type" = Some (VQuestionType MULTIPLE_CHOICE)
       ∧ question !! "options" = Some VNone)
  ∧ (∃ question,
       model_init (Question now) true_false_no_options_kwargs = Valid question
       ∧ question !! "question_type" = Some (VQuestionType TRUE_FALSE)
       ∧ question !! "options" = Some VNone)
  ∧ (kw !! "question_type" = Some (VQuestionType MULTIPLE_CHOICE) →
     ∃ errors,
       model_init (Question now) (<["options" := VNone]> kw)
       = ValidationError errors).
Proof.
  split; [|split; [|split]].
  - intros raw question Hinit.
    destruct (Question_options_omitted now (<["options" := raw]> kw) kw question)
      as (question' & Hinit' & Hstored & _); [|done|done|by exists question'].
    intros k Hk. by apply lookup_insert_ne.
  - exists (constructed (model_init (Question now) no_options_kwargs)).
    split; [|split]; vm_compute; reflexivity.
  - exists (constructed
              (model_init (Question now) true_false_no_options_kwargs)).
    split; [|split]; vm_compute; reflexivity.
  - intros Htype. apply Question_explicit_None_refused.
    + by rewrite lookup_insert_ne.
    + apply lookup_insert_eq.
Qed.

(** The example question without its [options] keyword. *)
Lemma C10_omitted_options_witness :
  no_options_kwargs !! "options" = None
  ∧ (∃ question,
       model_init (Question "2025-11-06T10:00:00") no_options_kwargs
       = Valid question
       ∧ question !! "options" = Some VNone)
  ∧ ∃ errors,
      model_init (Question "2025-11-06T10:00:00")
        (<["options" := VNone]> no_options_kwargs)
      = ValidationError errors.
Proof.
  assert (no_options_kwargs !! "options" = None) as Homitted
    by (vm_compute; reflexivity).
  split; [exact Homitted|].
  destruct (C10_omitted_options_bypass_the_check
              "2025-11-06T10:00:00" no_options_kwargs Homitted)
    as (Hdrop & _ & _ & Hnone).
  split.
  - apply (Hdrop (VStrList ["A"; "B"]%string)
             (constructed
                (model_init (Question "2025-11-06T10:00:00")
                   (<["options" := VStrList ["A"; "B"]%string]>
                      no_options_kwargs)))).
    vm_compute. reflexivity.
  - apply Hnone. vm_compute. reflexivity.
Defined.

(** When the [options] keyword is supplied, the validator runs and the
    stored value obeys the rule of the question type. *)
Lemma Question_options_supplied now kw raw question :
  kw !! "options" = Some raw →
  model_init (Question now) kw = Valid question →
  ∃ qt o,
    kw !! "question_type" = Some (VQuestionType qt)
    ∧ raw = unparse (optional_t list_str_t) o
    ∧ question !! "options" = Some raw
    ∧ match qt with
      | MULTIPLE_CHOICE => ∃ l, o = Some l ∧ (2 ≤ length l ≤ 6)%nat
      | TRUE_FALSE => o = Some ["True"; "False"]%string
      | FILL_BLANK | CODE_OUTPUT | CODE_WRITING => o = None
      end.
Proof.
  intros Hraw Hinit.
  destruct (Question_options _ _ _ Hinit)
    as (qt & Hqt & _ & [[Hnone _]|(o & data & Hsupplied & Hstored & Hdata & Hok)]);
    [congruence|].
  assert (raw = unparse (optional_t list_str_t) o) as -> by congruence.
  exists qt, o. do 3 (split; [done|]).
  destruct qt.
  - by apply validate_options_multiple_choice in Hok as [_ ?].
  - by apply validate_options_true_false in Hok as [_ ?].
  - apply (validate_options_without_options _ _ _ FILL_BLANK) in Hok as [_ ?];
      [done | done | by apply list_elem_of_here].
  - apply (validate_options_without_options _ _ _ CODE_OUTPUT) in Hok as [_ ?];
      [done | done | by apply list_elem_of_further, list_elem_of_here].
  - apply (validate_options_without_options _ _ _ CODE_WRITING) in Hok as [_ ?];
      [done | done |].
    by do 2 apply list_elem_of_further; apply list_elem_of_here.
Qed.

Lemma str_length_nonempty s : str_length 1 None s = Ok () → s ≠ ""%string.
Proof. intros Hlen ->. by vm_compute in Hlen. Qed.

(** [correct_answer] of an accepted question is a non-empty string. *)
Lemma Question_correct_answer now kw question :
  model_init (Question now) kw = Valid question →
  ∃ answer, question !! "correct_answer" = Some (VStr answer) ∧ answer ≠ ""%string.
Proof.
  intros Hinit.
  destruct (model_init_field _ _ _ 5%nat _ Hinit eq_refl)
    as (data & v & _ & Hf & Hv & _); [names_apart|].
  apply field_outcome_Ok in Hf
    as [(_ & d & [=] & _)|(raw & answer & y & _ & _ & Hlen & [= <-] & ->)].
  exists answer. split; [done | by apply str_length_nonempty].
Qed.

(** C6, as amended: for a [multiple_choice] question whose [options] keyword
    is supplied, construction succeeds only with a list of 2 to 6 options,
    so a single option is refused; [correct_answer] is only required to be
    non-empty. *)
Theorem C6_multiple_choice_options_checked_when_supplied now kw raw
    (Htype : kw !! "question_type" = Some (VQuestionType MULTIPLE_CHOICE))
    (Hsupplied : kw !! "options" = Some raw) :
  (∀ question,
     model_init (Question now) kw = Valid question →
     ∃ options answer,
       raw = VStrList options
       ∧ question !! "options" = Some (VStrList options)
       ∧ (2 ≤ length options ≤ 6)%nat
       ∧ question !! "correct_answer" = Some (VStr answer)
       ∧ answer ≠ ""%string)
  ∧ (∀ option, raw = VStrList [option] →
       ∃ errors, model_init (Question now) kw = ValidationError errors).
Proof.
  assert (∀ question, model_init (Question now) kw = Valid question →
            ∃ options, raw = VStrList options
                       ∧ question !! "options" = Some (VStrList options)
                       ∧ (2 ≤ length options ≤ 6)%nat) as Hoptions.
  { intros question Hinit.
    destruct (Question_options_supplied _ _ _ _ Hsupplied Hinit)
      as (qt & o & Hqt & -> & Hstored & Hrule).
    assert (qt = MULTIPLE_CHOICE) as -> by congruence.
    destruct Hrule as (l & -> & Hlen). by exists l. }
  split.
  - intros question Hinit.
    destruct (Hoptions question Hinit) as (options & -> & Hstored & Hlen).
    destruct (Question_correct_answer _ _ _ Hinit) as (answer & Hanswer & Hne).
    by exists options, answer.
  - intros option ->.
    destruct (model_init (Question now) kw) as [question|errors] eqn:Hinit;
      [|by exists errors].
    destruct (Hoptions question eq_refl) as (options & [= <-] & _ & Hlen).
    cbn in Hlen. lia.
Qed.

(** [example_question()] with its four options. *)
Lemma C6_multiple_choice_witness :
  example_question_kwargs !! "question_type"
  = Some (VQuestionType MULTIPLE_CHOICE)
  ∧ example_question_kwargs !! "options" = Some (VStrList example_options)
  ∧ model_init (Question "2025-11-06T10:00:00") example_question_kwargs
    = Valid example_question_instance
  ∧ ∃ options answer,
      VStrList example_options = VStrList options
      ∧ example_question_instance !! "options" = Some (VStrList options)
      ∧ (2 ≤ length options ≤ 6)%nat
      ∧ example_question_instance !! "correct_answer" = Some (VStr answer)
      ∧ answer ≠ ""%string.
Proof.
  assert (example_question_kwargs !! "question_type"
          = Some (VQuestionType MULTIPLE_CHOICE)) as Htype
    by (vm_compute; reflexivity).
  assert (example_question_kwargs !! "options"
          = Some (VStrList example_options)) as Hsupplied
    by (vm_compute; reflexivity).
  assert (model_init (Question "2025-11-06T10:00:00") example_question_kwargs
          = Valid example_question_instance) as Hvalid
    by (vm_compute; reflexivity).
  split; [exact Htype|]. split; [exact Hsupplied|]. split; [exact Hvalid|].
  exact (proj1 (C6_multiple_choice_options_checked_when_supplied
                  "2025-11-06T10:00:00" example_question_kwargs
                  (VStrList example_options) Htype Hsupplied)
           example_question_instance Hvalid).
Defined.

(** C6, as stated, fails: a [multiple_choice] question whose
    [correct_answer] is none of its options is accepted. *)
Lemma C6_correct_answer_outside_options_accepted :
  ∃ question,
    model_init (Question "2025-11-06T10:00:00") wrong_answer_kwargs
    = Valid question
    ∧ question !! "question_type" = Some (VQuestionType MULTIPLE_CHOICE)
    ∧ question !! "options" = Some (VStrList ["A"; "B"]%string)
    ∧ question !! "correct_answer" = Some (VStr "C")
    ∧ "C"%string ∉ ["A"; "B"]%string.
Proof.
  exists (constructed
            (model_init (Question "2025-11-06T10:00:00") wrong_answer_kwargs)).
  split; [vm_compute; reflexivity|].
  do 3 (split; [vm_compute; reflexivity|]). names_apart.
Qed.

(** C7: a [true_false] question must carry exactly the options True and
    False, and the three types without options refuse any list.  Evaluated
    on the code: without the [options] keyword a [true_false] question is
    accepted and stores [None]; with [options=["Yes", "No"]] it is refused,
    and a [fill_blank] question with a list of options is refused. *)
Theorem C7_true_false_accepted_without_options now :
  (∃ question,
     model_init (Question now) true_false_no_options_kwargs = Valid question
     ∧ question !! "question_type" = Some (VQuestionType TRUE_FALSE)
     ∧ question !! "options" = Some VNone)
  ∧ (∃ errors, model_init (Question now) yes_no_kwargs = ValidationError errors)
  ∧ ∃ errors,
      model_init (Question now) fill_blank_with_options_kwargs
      = ValidationError errors.
Proof.
  split; [|split].
  - exists (constructed
              (model_init (Question now) true_false_no_options_kwargs)).
    split; [|split]; vm_compute; reflexivity.
  - eexists. vm_compute. reflexivity.
  - eexists. vm_compute. reflexivity.
Qed.

(** * Batch operations *)

Lemma list_length_Ok {A} lo hi (l : list A) :
  list_length lo hi l = Ok () ↔ (lo ≤ length l ≤ hi)%nat.
Proof.
  unfold list_length.
  destruct (Nat.ltb_spec (length l) lo); [split; [done | lia]|].
  destruct (Nat.ltb_spec hi (length l)); [split; [done | lia]|].
  split; [lia | done].
Qed.

Lemma instances_t_parse classes raw items :
  parse (instances_t classes) raw = Some items ↔
  raw = VInstances items ∧ ∀ item, item ∈ items → item.1 ∈ classes.
Proof.
  destruct raw; cbn; try (split; [done | intros [[=] _]]).
  destruct (forallb _ l) eqn:Hall.
  - rewrite List.forallb_forall in Hall. split.
    + intros [= <-]. split; [done|]. intros item Hin.
      apply (proj1 (bool_decide_eq_true _)), Hall. by apply list_elem_of_In.
    + by intros [[= <-] _].
  - split; [done|]. intros [[= <-] Hclasses].
    assert (forallb (λ i, bool_decide (i.1 ∈ classes)) l = true) as Hyes;
      [|congruence].
    apply List.forallb_forall. intros item Hin.
    apply (proj2 (bool_decide_eq_true _)), Hclasses. by apply list_elem_of_In.
Qed.

(** A constructed request holds between 1 and 100 items, each an instance
    of [AethelgardConcept] or of [Question]. *)
Lemma BatchValidationRequest_items body request :
  model_init BatchValidationRequest body = Valid request →
  ∃ items,
    body !! "items" = Some (VInstances items)
    ∧ request !! "items" = Some (VInstances items)
    ∧ (1 ≤ length items ≤ 100)%nat
    ∧ ∀ item, item ∈ items → item.1 ∈ [AethelgardConceptC; QuestionC].
Proof.
  intros Hinit.
  destruct (model_init_field _ _ _ 0%nat _ Hinit eq_refl)
    as (data & v & _ & Hf & Hv & _); [names_apart|].
  apply field_outcome_Ok in Hf
    as [(_ & d & [=] & _)|(raw & items & y & Hkw & Hparse & Hlen & [= <-] & ->)].
  apply instances_t_parse in Hparse as [Hraw Hclasses].
  change (no_before raw) with raw in Hraw. subst raw.
  apply list_length_Ok in Hlen. by exists items.
Qed.

(** A body whose item list is empty or longer than 100 is refused, whatever
    else it holds. *)
Lemma BatchValidationRequest_size_refused body items :
  body !! "items" = Some (VInstances items) →
  (length items = 0 ∨ 100 < length items)%nat →
  ∃ errors, model_init BatchValidationRequest body = ValidationError errors.
Proof.
  intros Hitems Hlen.
  destruct (model_init BatchValidationRequest body) as [request|errors] eqn:Hinit;
    [|by exists errors].
  destruct (BatchValidationRequest_items _ _ Hinit) as (items' & Hbody & _ & ? & _).
  assert (items' = items) as -> by congruence. lia.
Qed.

(** The request built by the client is accepted when the list holds 1 to
    100 instances of the two item classes. *)
Lemma batch_request_accepted items :
  (∀ item, item ∈ items → item.1 ∈ [AethelgardConceptC; QuestionC]) →
  (1 ≤ length items ≤ 100)%nat →
  ∃ request,
    batch_request items = Valid request
    ∧ request !! "items" = Some (VInstances items)
    ∧ request !! "validation_type" = Some (VStr "full")
    ∧ request !! "strict" = Some (VBool true).
Proof.
  intros Hclasses Hlen. unfold batch_request.
  set (kw := batch_request_kwargs items).
  assert (kw !! "items" = Some (VInstances items)) as Hitems
    by (vm_compute; reflexivity).
  assert (kw !! "validation_type" = Some (VStr "full")) as Htype
    by (vm_compute; reflexivity).
  assert (kw !! "strict" = None) as Hstrict by (vm_compute; reflexivity).
  eexists. split.
  - apply model_init_Valid. cbn [model_fields BatchValidationRequest].
    eapply validate_strict_step.
    { rewrite (field_outcome_supplied _ _ _ _ _ _ _ _ _ Hitems).
      unfold no_before, id.
      rewrite (proj2 (instances_t_parse _ _ items) (conj eq_refl Hclasses)).
      rewrite (proj2 (list_length_Ok _ _ _) Hlen). reflexivity. }
    eapply validate_strict_step.
    { rewrite (field_outcome_supplied _ _ _ _ _ _ _ _ _ Htype). reflexivity. }
    eapply validate_strict_step.
    { rewrite (field_outcome_omitted _ _ _ _ _ _ _ _ Hstrict). reflexivity. }
    reflexivity.
  - split; [|split]; vm_compute; reflexivity.
Qed.

(** C4: the batch size is bounded at the request boundary.  A request of 1
    to 100 items is accepted (100 included); with no item or with more than
    100 the body is refused at construction, so the endpoint answers before
    its handler runs and no item is assessed. *)
Theorem C4_batch_size_bounds items
    (Hclasses : ∀ item, item ∈ items →
                  item.1 ∈ [AethelgardConceptC; QuestionC]) :
  ((1 ≤ length items ≤ 100)%nat →
     ∃ request, batch_request items = Valid request
                ∧ request !! "items" = Some (VInstances items))
  ∧ ((length items = 0 ∨ 100 < length items)%nat →
     (∃ errors, batch_request items = ValidationError errors)
     ∧ ∀ body, body !! "items" = Some (VInstances items) →
         (∃ errors, model_init BatchValidationRequest body
                    = ValidationError errors)
         ∧ ∀ validate_content validate_question timestamp now,
             ∃ errors,
               batch_validate_endpoint validate_content validate_question
                 timestamp now body = Unprocessable errors).
Proof.
  split.
  - intros Hlen.
    destruct (batch_request_accepted items Hclasses Hlen)
      as (request & Hinit & Hitems & _).
    by exists request.
  - intros Hlen. split.
    + apply (BatchValidationRequest_size_refused _ items); [|done].
      vm_compute. reflexivity.
    + intros body Hbody.
      destruct (BatchValidationRequest_size_refused _ _ Hbody Hlen)
        as [errors Herr].
      split; [by exists errors|]. intros vc vq ts now. exists errors.
      unfold batch_validate_endpoint. by rewrite Herr.
Qed.

Lemma question_batch_classes n item :
  item ∈ question_batch n → item.1 ∈ [AethelgardConceptC; QuestionC].
Proof.
  unfold question_batch. intros [-> _]%elem_of_replicate.
  apply list_elem_of_further, list_elem_of_here.
Qed.

(** Batches of 100, 101 and 0 questions. *)
Lemma C4_batch_size_witness :
  (∃ request, batch_request (question_batch 100) = Valid request
              ∧ request !! "items" = Some (VInstances (question_batch 100)))
  ∧ (∃ errors, batch_request (question_batch 101) = ValidationError errors)
  ∧ (∃ errors, batch_request (question_batch 0) = ValidationError errors).
Proof.
  split; [|split].
  - destruct (C4_batch_size_bounds (question_batch 100)
                (question_batch_classes 100)) as [Haccept _].
    apply Haccept. unfold question_batch. rewrite length_replicate. lia.
  - destruct (C4_batch_size_bounds (question_batch 101)
                (question_batch_classes 101)) as [_ Hrefuse].
    destruct Hrefuse as [Herr _]; [|exact Herr].
    right. unfold question_batch. rewrite length_replicate. lia.
  - destruct (C4_batch_size_bounds (question_batch 0)
                (question_batch_classes 0)) as [_ Hrefuse].
    destruct Hrefuse as [Herr _]; [|exact Herr].
    left. reflexivity.
Defined.

(** ** The batch result *)

(** The constructor of the batch result checks each field on its own:
    whatever the three counts are, the result is built and stores them, and
    the reports, as supplied. *)
Lemma BatchValidationResponse_unchecked now total passed failed reports stamp :
  ∃ result,
    model_init (BatchValidationResponse now)
      (list_to_map
         [ ("total_items", VInt total); ("passed", VInt passed);
           ("failed", VInt failed);
           ("reports", VInstances ((λ r, (QualityReportC, r)) <$> reports));
           ("timestamp", VStr stamp) ]%string)
    = Valid result
    ∧ result !! "total_items" = Some (VInt total)
    ∧ result !! "passed" = Some (VInt passed)
    ∧ result !! "failed" = Some (VInt failed)
    ∧ result !! "reports"
      = Some (VInstances ((λ r, (QualityReportC, r)) <$> reports)).
Proof.
  set (kw := list_to_map _ : Dict).
  assert (kw !! "total_items" = Some (VInt total)) as Htotal
    by (vm_compute; reflexivity).
  assert (kw !! "passed" = Some (VInt passed)) as Hpassed
    by (vm_compute; reflexivity).
  assert (kw !! "failed" = Some (VInt failed)) as Hfailed
    by (vm_compute; reflexivity).
  assert (kw !! "reports"
          = Some (VInstances ((λ r, (QualityReportC, r)) <$> reports)))
    as Hreports by (vm_compute; reflexivity).
  assert (kw !! "timestamp" = Some (VStr stamp)) as Hstamp
    by (vm_compute; reflexivity).
  clearbody kw. eexists. split.
  - apply model_init_Valid. cbn [model_fields BatchValidationResponse].
    eapply validate_strict_step.
    { rewrite (field_outcome_supplied _ _ _ _ _ _ _ _ _ Htotal). reflexivity. }
    eapply validate_strict_step.
    { rewrite (field_outcome_supplied _ _ _ _ _ _ _ _ _ Hpassed). reflexivity. }
    eapply validate_strict_step.
    { rewrite (field_outcome_supplied _ _ _ _ _ _ _ _ _ Hfailed). reflexivity. }
    eapply validate_strict_step.
    { rewrite (field_outcome_supplied _ _ _ _ _ _ _ _ _ Hreports).
      unfold no_before, id.
      assert (∀ item : ModelClass * Dict,
                item ∈ (λ r : Dict, (QualityReportC, r)) <$> reports →
                item.1 ∈ [QualityReportC]) as Hclasses.
      { intros item (r & -> & _)%list_elem_of_fmap. apply list_elem_of_here. }
      rewrite (proj2 (instances_t_parse [QualityReportC] _ _)
                 (conj eq_refl Hclasses)).
      reflexivity. }
    eapply validate_strict_step.
    { rewrite (field_outcome_supplied _ _ _ _ _ _ _ _ _ Hstamp). reflexivity. }
    reflexivity.
  - cbn [f_name field].
    split; [|split; [|split]];
      repeat first [ apply lookup_insert_eq
                   | rewrite lookup_insert_ne by done ].
Qed.

(** A field [name: int] without bounds: the keyword is an int and it is
    stored unchanged. *)
Lemma plain_int_field_inv M kw inst n name :
  model_init M kw = Valid inst →
  model_fields M !! n
  = Some (field name int_t None no_before no_constraint no_validator) →
  name ∉ f_name <$> drop (S n) (model_fields M) →
  ∃ z, kw !! name = Some (VInt z) ∧ inst !! name = Some (VInt z).
Proof.
  intros Hinit Hn Hlater.
  destruct (model_init_field _ _ _ n _ Hinit Hn Hlater)
    as (data & v & _ & Hf & Hv & _).
  apply field_outcome_Ok in Hf
    as [(_ & d & [=] & _)|(raw & z & y & Hkw & Hparse & _ & [= <-] & ->)].
  destruct raw; try done. cbn in Hparse. simplify_eq.
  by exists z.
Qed.

(** A constructed batch result stores the reports it was given, which are
    instances of [QualityReport], in the order given. *)
Lemma BatchValidationResponse_reports now kw result :
  model_init (BatchValidationResponse now) kw = Valid result →
  ∃ reports,
    kw !! "reports" = Some (VInstances reports)
    ∧ result !! "reports" = Some (VInstances reports)
    ∧ ∀ item, item ∈ reports → item.1 = QualityReportC.
Proof.
  intros Hinit.
  destruct (model_init_field _ _ _ 3%nat _ Hinit eq_refl)
    as (data & v & _ & Hf & Hv & _); [names_apart|].
  apply field_outcome_Ok in Hf
    as [(_ & d & [=] & _)|(raw & items & y & Hkw & Hparse & _ & [= <-] & ->)].
  apply instances_t_parse in Hparse as [Hraw Hclasses].
  change (no_before raw) with raw in Hraw. subst raw.
  exists items. split; [done|]. split; [done|].
  intros item Hin. specialize (Hclasses item Hin).
  by apply list_elem_of_singleton in Hclasses.
Qed.

(** C5 (amended): a batch result has the fields [total_items], [passed],
    [failed], [reports] and [timestamp], and no [errored] count.  Its
    constructor checks each field on its own and no equation between the
    counts: every constructed result stores the three integers and the list
    of reports exactly as supplied, the reports in the order supplied, and
    for any three integers and any list of reports the result is
    constructed. *)
Theorem C5_batch_result_stores_counts_as_supplied now kw result
    (Hvalid : model_init (BatchValidationResponse now) kw = Valid result) :
  (∃ total passed failed reports,
     (kw !! "total_items" = Some (VInt total)
      ∧ result !! "total_items" = Some (VInt total))
     ∧ (kw !! "passed" = Some (VInt passed)
        ∧ result !! "passed" = Some (VInt passed))
     ∧ (kw !! "failed" = Some (VInt failed)
        ∧ result !! "failed" = Some (VInt failed))
     ∧ (kw !! "reports" = Some (VInstances reports)
        ∧ result !! "reports" = Some (VInstances reports))
     ∧ ∀ item, item ∈ reports → item.1 = QualityReportC)
  ∧ result !! "errored" = None
  ∧ (∀ total passed failed reports stamp,
       ∃ result',
         model_init (BatchValidationResponse now)
           (list_to_map
              [ ("total_items", VInt total); ("passed", VInt passed);
                ("failed", VInt failed);
                ("reports",
                 VInstances ((λ r, (QualityReportC, r)) <$> reports));
                ("timestamp", VStr stamp) ]%string)
         = Valid result'
         ∧ result' !! "total_items" = Some (VInt total)
         ∧ result' !! "passed" = Some (VInt passed)
         ∧ result' !! "failed" = Some (VInt failed)
         ∧ result' !! "reports"
           = Some (VInstances ((λ r, (QualityReportC, r)) <$> reports))).
Proof.
  split; [|split].
  - destruct (plain_int_field_inv _ _ _ 0%nat _ Hvalid eq_refl)
      as (total & Ht); [names_apart|].
    destruct (plain_int_field_inv _ _ _ 1%nat _ Hvalid eq_refl)
      as (passed & Hp); [names_apart|].
    destruct (plain_int_field_inv _ _ _ 2%nat _ Hvalid eq_refl)
      as (failed & Hf); [names_apart|].
    destruct (BatchValidationResponse_reports _ _ _ Hvalid)
      as (reports & Hkw & Hstored & Hclasses).
    exists total, passed, failed, reports.
    split; [exact Ht|]. split; [exact Hp|]. split; [exact Hf|].
    split; [by split | exact Hclasses].
  - apply model_init_Valid in Hvalid.
    apply (validate_strict_lookup_None _ _ _ _ Hvalid). names_apart.
  - apply BatchValidationResponse_unchecked.
Qed.

(** The result built from [inconsistent_batch_kwargs] is such a result. *)
Lemma C5_batch_result_witness :
  model_init (BatchValidationResponse "2025-11-06T10:00:00")
    inconsistent_batch_kwargs
  = Valid (constructed
             (model_init (BatchValidationResponse "2025-11-06T10:00:00")
                inconsistent_batch_kwargs))
  ∧ constructed
      (model_init (BatchValidationResponse "2025-11-06T10:00:00")
         inconsistent_batch_kwargs) !! "errored" = None.
Proof.
  assert (model_init (BatchValidationResponse "2025-11-06T10:00:00")
            inconsistent_batch_kwargs
          = Valid (constructed
                     (model_init
                        (BatchValidationResponse "2025-11-06T10:00:00")
                        inconsistent_batch_kwargs)))
    as Hvalid by (vm_compute; reflexivity).
  split; [exact Hvalid|].
  exact (proj1 (proj2 (C5_batch_result_stores_counts_as_supplied _ _ _ Hvalid))).
Defined.

(** C5, as stated, fails: a batch result whose total is not the sum of its
    counts is constructed without complaint. *)
Lemma C5_inconsistent_counts_accepted :
  ∃ result,
    model_init (BatchValidationResponse "2025-11-06T10:00:00")
      inconsistent_batch_kwargs = Valid result
    ∧ result !! "total_items" = Some (VInt 1)
    ∧ result !! "passed" = Some (VInt 1)
    ∧ result !! "failed" = Some (VInt 1)
    ∧ ∀ errored, 0 ≤ errored → 1 ≠ 1 + 1 + errored.
Proof.
  exists (constructed
            (model_init (BatchValidationResponse "2025-11-06T10:00:00")
               inconsistent_batch_kwargs)).
  split; [vm_compute; reflexivity|].
  do 3 (split; [vm_compute; reflexivity|]). intros errored Hpos. lia.
Qed.

(** * Assignment to a constructed instance *)

(** The verdict of a constructible report is false, in the keyword and in
    the stored field. *)
Lemma QualityReport_passes_quality_false now kw report :
  model_init (QualityReport now) kw = Valid report →
  kw !! "passes_quality" = Some (VBool false)
  ∧ report !! "passes_quality" = Some (VBool false).
Proof.
  intros Hvalid.
  pose proof (QualityReport_overall_score_zero _ _ _ Hvalid) as Hzero.
  destruct (QualityReport_verdict _ _ _ Hvalid)
    as (score & gates & [_ Hscore] & _ & Hkw & Hpasses).
  assert (score = 0) as -> by congruence.
  by change (expected_pass 0 gates) with false in Hkw, Hpasses.
Qed.

Lemma model_setattr_frozen M inst name v :
  frozen (model_config M) = true →
  starts_with_underscore name = false →
  model_setattr M inst name v = Raised "Instance is frozen".
Proof. unfold model_setattr. by intros -> ->. Qed.

Lemma model_setattr_field M inst name v :
  frozen (model_config M) = false →
  starts_with_underscore name = false →
  name ∈ f_name <$> model_fields M →
  model_setattr M inst name v = Stored (<[name := v]> inst).
Proof.
  unfold model_setattr. intros -> -> Hname. by rewrite bool_decide_eq_true_2.
Qed.

(** No field of a report has a name that starts with an underscore. *)
Lemma QualityReport_field_names now name :
  name ∈ f_name <$> model_fields (QualityReport now) →
  starts_with_underscore name = false.
Proof.
  cbn [model_fields QualityReport fmap list_fmap f_name field].
  intros Hin.
  repeat (apply elem_of_cons in Hin as [-> | Hin]; [reflexivity|]).
  by apply elem_of_nil in Hin.
Qed.

(** C8 (amended): of the twelve models of the module only [Citation] and
    [CodeExample] declare [frozen]; an assignment to an attribute of one of
    their instances whose name does not start with an underscore is
    refused.  [QualityReport] declares no [model_config]: assigning to a
    declared field of a constructed report succeeds and replaces the stored
    value in place, the other fields keep their values, and no validator
    runs, so that [report.passes_quality = True] or a non-zero
    [report.overall_score] turns a constructed report into one that no call
    of the constructor returns. *)
Theorem C8_assignment_is_refused_only_by_frozen_models now kw report name v
    (Hvalid : model_init (QualityReport now) kw = Valid report)
    (Hfield : name ∈ f_name <$> model_fields (QualityReport now)) :
  (∀ m, frozen (declared_config m) = true ↔ m = CitationM ∨ m = CodeExampleM)
  ∧ (model_config Citation = declared_config CitationM
     ∧ model_config CodeExample = declared_config CodeExampleM
     ∧ model_config (Question now) = declared_config QuestionM
     ∧ model_config (QualityReport now) = declared_config QualityReportM
     ∧ model_config BatchValidationRequest
       = declared_config BatchValidationRequestM
     ∧ model_config (BatchValidationResponse now)
       = declared_config BatchValidationResponseM)
  ∧ (model_setattr (QualityReport now) report name v
     = Stored (<[name := v]> report)
     ∧ (<[name := v]> report) !! name = Some v
     ∧ ∀ other, other ≠ name →
         (<[name := v]> report) !! other = report !! other)
  ∧ (model_setattr (QualityReport now) report "passes_quality" (VBool true)
     = Stored (<["passes_quality" := VBool true]> report)
     ∧ ∀ now' kw',
         model_init (QualityReport now') kw'
         ≠ Valid (<["passes_quality" := VBool true]> report))
  ∧ (∀ score, score ≠ 0 →
       model_setattr (QualityReport now) report "overall_score" (VInt score)
       = Stored (<["overall_score" := VInt score]> report)
       ∧ ∀ now' kw',
           model_init (QualityReport now') kw'
           ≠ Valid (<["overall_score" := VInt score]> report))
  ∧ (∀ inst attribute value,
       starts_with_underscore attribute = false →
       model_setattr Citation inst attribute value
       = Raised "Instance is frozen"
       ∧ model_setattr CodeExample inst attribute value
         = Raised "Instance is frozen").
Proof.
  split; [|split; [|split; [|split; [|split]]]].
  - intros m. split.
    + destruct m; cbn; intros Hm; try discriminate Hm; eauto.
    + by intros [-> | ->].
  - by repeat split.
  - split.
    { apply model_setattr_field; [reflexivity | | exact Hfield].
      by apply (QualityReport_field_names now). }
    split.
    + apply lookup_insert_eq.
    + intros other Hother. by apply lookup_insert_ne.
  - split.
    + apply model_setattr_field; [reflexivity | reflexivity |].
      apply (proj1 (bool_decide_eq_true _)). vm_compute. reflexivity.
    + intros now' kw' Hinit.
      destruct (QualityReport_passes_quality_false _ _ _ Hinit) as [_ Hstored].
      rewrite lookup_insert_eq in Hstored. discriminate Hstored.
  - intros score Hscore. split.
    + apply model_setattr_field; [reflexivity | reflexivity |].
      apply (proj1 (bool_decide_eq_true _)). vm_compute. reflexivity.
    + intros now' kw' Hinit.
      pose proof (QualityReport_overall_score_zero _ _ _ Hinit) as Hstored.
      rewrite lookup_insert_eq in Hstored. congruence.
  - intros inst attribute value Hname.
    split; by apply model_setattr_frozen.
Qed.

(** Assigning [passes_quality] on the report built from
    [report_sum_mismatch_kwargs], and on a citation. *)
Lemma C8_assignment_witness :
  model_init (QualityReport "2025-11-06T10:00:00") report_sum_mismatch_kwargs
  = Valid mismatch_report_instance
  ∧ model_setattr (QualityReport "2025-11-06T10:00:00")
      mismatch_report_instance "passes_quality" (VBool true)
    = Stored (<["passes_quality" := VBool true]> mismatch_report_instance)
  ∧ model_setattr Citation example_citation_kwargs "passes_quality"
      (VBool true) = Raised "Instance is frozen".
Proof.
  assert (model_init (QualityReport "2025-11-06T10:00:00")
            report_sum_mismatch_kwargs = Valid mismatch_report_instance)
    as Hvalid by (vm_compute; reflexivity).
  assert ("passes_quality"%string
          ∈ f_name <$> model_fields (QualityReport "2025-11-06T10:00:00"))
    as Hfield
    by (apply (proj1 (bool_decide_eq_true _)); vm_compute; reflexivity).
  destruct (C8_assignment_is_refused_only_by_frozen_models
              "2025-11-06T10:00:00" report_sum_mismatch_kwargs
              mismatch_report_instance "passes_quality" (VBool true)
              Hvalid Hfield)
    as (_ & _ & [Hset _] & _ & _ & Hfrozen).
  split; [exact Hvalid|]. split; [exact Hset|].
  exact (proj1 (Hfrozen example_citation_kwargs "passes_quality"%string
                  (VBool true) eq_refl)).
Defined.

(** C8, as stated, fails: a constructed report is edited in place.  The
    report built from [report_sum_mismatch_kwargs] has [overall_score] 0;
    after [report.overall_score = 100] the same report holds 100, although
    no report with that score can be constructed. *)
Lemma C8_report_edited_in_place :
  model_init (QualityReport "2025-11-06T10:00:00") report_sum_mismatch_kwargs
  = Valid mismatch_report_instance
  ∧ mismatch_report_instance !! "overall_score" = Some (VInt 0)
  ∧ model_setattr (QualityReport "2025-11-06T10:00:00")
      mismatch_report_instance "overall_score" (VInt 100)
    = Stored (<["overall_score" := VInt 100]> mismatch_report_instance)
  ∧ (<["overall_score" := VInt 100]> mismatch_report_instance)
      !! "overall_score" = Some (VInt 100).
Proof.
  split; [vm_compute; reflexivity|]. split; [vm_compute; reflexivity|].
  split; [|apply lookup_insert_eq].
  apply model_setattr_field; [reflexivity | reflexivity |].
  apply (proj1 (bool_decide_eq_true _)). vm_compute. reflexivity.
Qed.

(** * Further properties *)

(** ** Required keywords *)

Lemma model_init_required_missing M kw name :
  name ∈ required_fields M →
  kw !! name = None →
  ∃ errors, model_init M kw = ValidationError errors.
Proof.
  unfold required_fields.
  intros (f & -> & [Hdefault Hin]%list_elem_of_filter)%list_elem_of_fmap Hkw.
  apply list_elem_of_split in Hin as (fs1 & fs2 & Hsplit).
  apply (model_init_field_fails M kw fs1 f fs2 Hsplit).
  intros data. exists "Field required"%string.
  unfold field_outcome. by rewrite Hkw, Hdefault.
Qed.

(** A declared default is stored when the keyword is omitted. *)
Lemma model_init_default_stored M kw inst n f d :
  model_init M kw = Valid inst →
  model_fields M !! n = Some f →
  f_name f ∉ f_name <$> drop (S n) (model_fields M) →
  f_default f = Some d →
  kw !! f_name f = None →
  inst !! f_name f = Some d.
Proof.
  intros Hinit Hn Hlater Hdefault Hkw.
  destruct (model_init_field _ _ _ n f Hinit Hn Hlater)
    as (data & v & _ & Hf & Hv & _).
  unfold field_outcome in Hf. rewrite Hkw, Hdefault in Hf.
  by injection Hf as <-.
Qed.

(** An [int] field with bounds: the keyword is an int within the bounds and
    it is stored unchanged. *)
Lemma int_field_inv M kw inst n name lo hi :
  model_init M kw = Valid inst →
  model_fields M !! n
  = Some (field name int_t None no_before (ge_le lo hi) no_validator) →
  name ∉ f_name <$> drop (S n) (model_fields M) →
  ∃ s, kw !! name = Some (VInt s) ∧ inst !! name = Some (VInt s) ∧ lo ≤ s ≤ hi.
Proof.
  intros Hinit Hn Hlater.
  destruct (model_init_field _ _ _ n _ Hinit Hn Hlater)
    as (data & v & _ & Hf & Hv & _).
  apply field_outcome_Ok in Hf
    as [(_ & d & [=] & _)|(raw & s & y & Hkw & Hparse & Hb & [= <-] & ->)].
  destruct raw; try done. cbn in Hparse. simplify_eq.
  exists s. split; [done|]. split; [done|].
  unfold ge_le in Hb.
  destruct (Z.leb_spec lo s), (Z.leb_spec s hi); try done; lia.
Qed.

Lemma ge_le_Ok lo hi v : ge_le lo hi v = Ok () ↔ lo ≤ v ≤ hi.
Proof.
  unfold ge_le.
  destruct (Z.leb_spec lo v), (Z.leb_spec v hi); cbn; split; try done; lia.
Qed.

(** ** AethelgardConcept.validate_libraries *)

Lemma Library_value_approved lib : Library_value lib ∈ approved_libraries.
Proof.
  apply (proj1 (bool_decide_eq_true _)). by destruct lib; vm_compute.
Qed.

(** X9: The check on [libraries] cannot fail: the field hands the validator
    members of [Library], and the value of every member is in [approved]. *)
Theorem validate_libraries_never_rejects v : validate_libraries v = Ok v.
Proof.
  destruct v as [|lib v]; [done|]. unfold validate_libraries.
  assert (filter (λ l, Library_value l ∉ approved_libraries) (lib :: v) = [])
    as ->; [|done].
  induction (lib :: v) as [|l ls IH]; [done|].
  rewrite filter_cons_False; [done|].
  intros Hnot. apply Hnot, Library_value_approved.
Qed.

(** ** What every constructible report satisfies *)

(** X1: No report that passes can be constructed: [overall_score] is compared
    with 0 (its validator runs before the criterion scores are known), so a
    constructible report has score 0, and the verdict of score 0 is false
    whatever the gates are. *)
Theorem QualityReport_never_passes now kw report
    (Hvalid : model_init (QualityReport now) kw = Valid report) :
  report !! "overall_score" = Some (VInt 0)
  ∧ report !! "passes_quality" = Some (VBool false)
  ∧ kw !! "passes_quality" = Some (VBool false)
  ∧ report_passes_quality report = false.
Proof.
  destruct (QualityReport_passes_quality_false _ _ _ Hvalid) as [Hkw Hpasses].
  split; [by apply (QualityReport_overall_score_zero now kw)|].
  split; [done|]. split; [done|].
  unfold report_passes_quality. by rewrite Hpasses.
Qed.

Lemma QualityReport_never_passes_witness :
  model_init (QualityReport "2025-11-06T10:00:00") report_sum_mismatch_kwargs
  = Valid mismatch_report_instance
  ∧ mismatch_report_instance !! "overall_score" = Some (VInt 0)
  ∧ mismatch_report_instance !! "passes_quality" = Some (VBool false)
  ∧ report_sum_mismatch_kwargs !! "passes_quality" = Some (VBool false)
  ∧ report_passes_quality mismatch_report_instance = false.
Proof.
  assert (model_init (QualityReport "2025-11-06T10:00:00")
            report_sum_mismatch_kwargs = Valid mismatch_report_instance)
    as Hvalid by (vm_compute; reflexivity).
  split; [exact Hvalid|].
  exact (QualityReport_never_passes _ _ _ Hvalid).
Defined.

Lemma QualityReport_item_type now kw report :
  model_init (QualityReport now) kw = Valid report →
  ∃ s, kw !! "item_type" = Some (VStr s)
       ∧ report !! "item_type" = Some (VStr s)
       ∧ (s = "content" ∨ s = "question")%string.
Proof.
  intros Hinit.
  destruct (model_init_field _ _ _ 1%nat _ Hinit eq_refl)
    as (data & v & _ & Hf & Hv & _); [names_apart|].
  apply field_outcome_Ok in Hf
    as [(_ & d & [=] & _)|(raw & s & y & Hkw & Hparse & _ & [= <-] & ->)].
  destruct raw; try done. cbn in Hparse.
  case_bool_decide as Hin; [|done]. simplify_eq.
  exists s. split; [done|]. split; [done|].
  apply elem_of_cons in Hin as [->|Hin]; [by left|].
  apply elem_of_cons in Hin as [->|Hin]; [by right|].
  by apply elem_of_nil in Hin.
Qed.

Lemma QualityReport_criterion_bounds now kw report :
  model_init (QualityReport now) kw = Valid report →
  Forall2 (λ name max,
             ∃ s, kw !! name = Some (VInt s)
                  ∧ report !! name = Some (VInt s) ∧ 0 ≤ s ≤ max)
    criterion_fields criterion_maxima.
Proof.
  intros Hinit. unfold criterion_fields, criterion_maxima.
  repeat (apply Forall2_cons; split); [..|apply Forall2_nil_2];
    first [ apply (int_field_inv _ _ _ 3%nat _ _ _ Hinit eq_refl)
          | apply (int_field_inv _ _ _ 4%nat _ _ _ Hinit eq_refl)
          | apply (int_field_inv _ _ _ 5%nat _ _ _ Hinit eq_refl)
          | apply (int_field_inv _ _ _ 6%nat _ _ _ Hinit eq_refl)
          | apply (int_field_inv _ _ _ 7%nat _ _ _ Hinit eq_refl)
          | apply (int_field_inv _ _ _ 8%nat _ _ _ Hinit eq_refl)
          | apply (int_field_inv _ _ _ 9%nat _ _ _ Hinit eq_refl)
          | apply (int_field_inv _ _ _ 10%nat _ _ _ Hinit eq_refl)
          | apply (int_field_inv _ _ _ 11%nat _ _ _ Hinit eq_refl)
          | apply (int_field_inv _ _ _ 12%nat _ _ _ Hinit eq_refl) ];
    names_apart.
Qed.

(** X2: Every constructible report keeps each criterion score as supplied and
    within its maximum, so the ten scores sum to at most 100; its
    [item_type] is one of the two literals. *)
Theorem QualityReport_scores_within_rubric now kw report
    (Hvalid : model_init (QualityReport now) kw = Valid report) :
  Forall2 (λ name max,
             ∃ s, kw !! name = Some (VInt s)
                  ∧ report !! name = Some (VInt s) ∧ 0 ≤ s ≤ max)
    criterion_fields criterion_maxima
  ∧ 0 ≤ criteria_total report ≤ 100
  ∧ (report !! "item_type" = Some (VStr "content")
     ∨ report !! "item_type" = Some (VStr "question")).
Proof.
  pose proof (QualityReport_criterion_bounds _ _ _ Hvalid) as Hbounds.
  split; [done|]. split.
  - unfold criterion_fields, criterion_maxima in Hbounds.
    repeat match goal with
           | H : Forall2 _ (_ :: _) (_ :: _) |- _ =>
               apply Forall2_cons in H as [(? & _ & ? & ?) H]
           end.
    unfold criteria_total, criterion_fields, data_get_int.
    cbn [fmap list_fmap sum foldr].
    repeat match goal with
           | H : report !! _ = Some _ |- _ => rewrite H; clear H
           end.
    lia.
  - destruct (QualityReport_item_type _ _ _ Hvalid)
      as (s & _ & Hstored & [-> | ->]); [by left | by right].
Qed.

Lemma QualityReport_scores_within_rubric_witness :
  model_init (QualityReport "2025-11-06T10:00:00") report_sum_mismatch_kwargs
  = Valid mismatch_report_instance
  ∧ 0 ≤ criteria_total mismatch_report_instance ≤ 100.
Proof.
  assert (model_init (QualityReport "2025-11-06T10:00:00")
            report_sum_mismatch_kwargs = Valid mismatch_report_instance)
    as Hvalid by (vm_compute; reflexivity).
  split; [exact Hvalid|].
  exact (proj1 (proj2 (QualityReport_scores_within_rubric _ _ _ Hvalid))).
Defined.

(** X4: Every field of [QualityReport] but [validator_version] is required,
    and so are the seven fields of [Question] without default: leaving any
    of these keywords out makes construction fail, whatever the other
    keywords are. *)
Theorem required_keywords now kw name (Hmissing : kw !! name = None) :
  (name ∈ [ "item_id"; "item_type"; "overall_score";
            "groundedness_citation_score"; "technical_correctness_score";
            "people_first_pedagogy_score"; "psw_actionability_score";
            "mode_fidelity_score"; "self_paced_scaffolding_score";
            "retrieval_quality_score"; "clarity_score";
            "bloom_alignment_score"; "people_first_language_score";
            "gates"; "telemetry"; "issues"; "strengths"; "suggestions";
            "passes_quality"; "validated_at" ]%string →
   ∃ errors, model_init (QualityReport now) kw = ValidationError errors)
  ∧ (name ∈ [ "question_id"; "concept_id"; "question_text"; "question_type";
              "correct_answer"; "difficulty"; "blooms_level" ]%string →
     ∃ errors, model_init (Question now) kw = ValidationError errors).
Proof.
  split; intros Hrequired;
    (apply (model_init_required_missing _ _ name); [|done]).
  - assert (required_fields (QualityReport now)
            = [ "item_id"; "item_type"; "overall_score";
                "groundedness_citation_score"; "technical_correctness_score";
                "people_first_pedagogy_score"; "psw_actionability_score";
                "mode_fidelity_score"; "self_paced_scaffolding_score";
                "retrieval_quality_score"; "clarity_score";
                "bloom_alignment_score"; "people_first_language_score";
                "gates"; "telemetry"; "issues"; "strengths"; "suggestions";
                "passes_quality"; "validated_at" ]%string) as ->
      by (vm_compute; reflexivity).
    done.
  - assert (required_fields (Question now)
            = [ "question_id"; "concept_id"; "question_text"; "question_type";
                "correct_answer"; "difficulty"; "blooms_level" ]%string) as ->
      by (vm_compute; reflexivity).
    done.
Qed.

Lemma required_keywords_witness :
  delete "telemetry" report_sum_mismatch_kwargs !! "telemetry" = None
  ∧ ∃ errors,
      model_init (QualityReport "2025-11-06T10:00:00")
        (delete "telemetry" report_sum_mismatch_kwargs)
      = ValidationError errors.
Proof.
  assert (delete "telemetry" report_sum_mismatch_kwargs !! "telemetry" = None)
    as Hmissing by (vm_compute; reflexivity).
  split; [exact Hmissing|].
  apply (proj1 (required_keywords "2025-11-06T10:00:00" _ _ Hmissing)).
  apply (proj1 (bool_decide_eq_true _)). vm_compute. reflexivity.
Defined.

(** X5: The two time-related fields of a constructible report:
    [validated_at=None] is replaced by the current time followed by "Z", a
    string is kept as it is, and [validator_version] is "2.0" unless a
    string is supplied. *)
Theorem QualityReport_stamp_and_version now kw report
    (Hvalid : model_init (QualityReport now) kw = Valid report) :
  ((kw !! "validated_at" = Some VNone
    ∧ report !! "validated_at" = Some (VStr (now +:+ "Z")))
   ∨ ∃ s, kw !! "validated_at" = Some (VStr s)
          ∧ report !! "validated_at" = Some (VStr s))
  ∧ ((kw !! "validator_version" = None
      ∧ report !! "validator_version" = Some (VStr "2.0"))
     ∨ ∃ s, kw !! "validator_version" = Some (VStr s)
            ∧ report !! "validator_version" = Some (VStr s)).
Proof.
  split.
  - destruct (model_init_field _ _ _ 19%nat _ Hvalid eq_refl)
      as (data & v & _ & Hf & Hv & _); [names_apart|].
    apply field_outcome_Ok in Hf
      as [(_ & d & [=] & _)|(raw & s & y & Hkw & Hparse & _ & [= <-] & ->)].
    destruct raw; try done; cbn in Hparse; simplify_eq.
    + by left.
    + right. by exists s.
  - destruct (model_init_field _ _ _ 20%nat _ Hvalid eq_refl)
      as (data & v & _ & Hf & Hv & _); [names_apart|].
    apply field_outcome_Ok in Hf
      as [(Hnone & d & [= <-] & ->)
         |(raw & s & y & Hkw & Hparse & _ & [= <-] & ->)].
    + by left.
    + destruct raw; try done; cbn in Hparse; simplify_eq.
      right. by exists s.
Qed.

Lemma QualityReport_stamp_and_version_witness :
  model_init (QualityReport "2025-11-06T10:00:00") report_sum_mismatch_kwargs
  = Valid mismatch_report_instance
  ∧ ((report_sum_mismatch_kwargs !! "validated_at" = Some VNone
      ∧ mismatch_report_instance !! "validated_at"
        = Some (VStr ("2025-11-06T10:00:00" +:+ "Z")))
     ∨ ∃ s, report_sum_mismatch_kwargs !! "validated_at" = Some (VStr s)
            ∧ mismatch_report_instance !! "validated_at" = Some (VStr s)).
Proof.
  assert (model_init (QualityReport "2025-11-06T10:00:00")
            report_sum_mismatch_kwargs = Valid mismatch_report_instance)
    as Hvalid by (vm_compute; reflexivity).
  split; [exact Hvalid|].
  exact (proj1 (QualityReport_stamp_and_version _ _ _ Hvalid)).
Defined.

(** ** Exactly which reports are accepted *)

(** A supplied keyword that parses, meets the constraint and passes the
    validator is accepted and stored. *)
Lemma field_accept {T} kw name (S : Schema T) default before constraint after
    data raw x y :
  kw !! name = Some raw →
  parse S (before raw) = Some x →
  constraint x = Ok () →
  after x data = Ok y →
  field_outcome kw (field name S default before constraint after) data
  = Ok (unparse S y).
Proof.
  intros Hkw Hparse Hc Hafter.
  rewrite (field_outcome_supplied _ _ _ _ _ _ _ _ _ Hkw), Hparse, Hc.
  cbn. by rewrite Hafter.
Qed.

Ltac accept_supplied H :=
  eapply validate_strict_step;
  [ eapply field_accept; [exact H | reflexivity | try reflexivity | try reflexivity] |].

Ltac accept_int H Hbound :=
  eapply validate_strict_step;
  [ eapply field_accept;
    [exact H | reflexivity | apply ge_le_Ok; exact Hbound | try reflexivity] |].

Lemma QualityReport_accepts now item_id item_type scores gates telemetry issues
    strengths suggestions validated_at :
  (item_type = "content" ∨ item_type = "question")%string →
  Forall2 (λ s max, 0 ≤ s ≤ max) (score_list scores) criterion_maxima →
  ∃ report,
    model_init (QualityReport now)
      (quality_report_kwargs item_id item_type 0 scores gates telemetry issues
         strengths suggestions false validated_at) = Valid report.
Proof.
  intros Htype Hbounds.
  unfold score_list, criterion_maxima in Hbounds.
  apply Forall2_cons in Hbounds as [B1 Hbounds].
  apply Forall2_cons in Hbounds as [B2 Hbounds].
  apply Forall2_cons in Hbounds as [B3 Hbounds].
  apply Forall2_cons in Hbounds as [B4 Hbounds].
  apply Forall2_cons in Hbounds as [B5 Hbounds].
  apply Forall2_cons in Hbounds as [B6 Hbounds].
  apply Forall2_cons in Hbounds as [B7 Hbounds].
  apply Forall2_cons in Hbounds as [B8 Hbounds].
  apply Forall2_cons in Hbounds as [B9 Hbounds].
  apply Forall2_cons in Hbounds as [B10 Hbounds].
  set (kw := quality_report_kwargs _ _ _ _ _ _ _ _ _ _ _).
  assert (kw !! "item_id" = Some (VStr item_id)) as K1
    by (vm_compute; reflexivity).
  assert (kw !! "item_type" = Some (VStr item_type)) as K2
    by (vm_compute; reflexivity).
  assert (kw !! "overall_score" = Some (VInt 0)) as K3
    by (vm_compute; reflexivity).
  assert (kw !! "groundedness_citation_score"
          = Some (VInt (groundedness_citation_score scores))) as K4
    by (vm_compute; reflexivity).
  assert (kw !! "technical_correctness_score"
          = Some (VInt (technical_correctness_score scores))) as K5
    by (vm_compute; reflexivity).
  assert (kw !! "people_first_pedagogy_score"
          = Some (VInt (people_first_pedagogy_score scores))) as K6
    by (vm_compute; reflexivity).
  assert (kw !! "psw_actionability_score"
          = Some (VInt (psw_actionability_score scores))) as K7
    by (vm_compute; reflexivity).
  assert (kw !! "mode_fidelity_score"
          = Some (VInt (mode_fidelity_score scores))) as K8
    by (vm_compute; reflexivity).
  assert (kw !! "self_paced_scaffolding_score"
          = Some (VInt (self_paced_scaffolding_score scores))) as K9
    by (vm_compute; reflexivity).
  assert (kw !! "retrieval_quality_score"
          = Some (VInt (retrieval_quality_score scores))) as K10
    by (vm_compute; reflexivity).
  assert (kw !! "clarity_score" = Some (VInt (clarity_score scores))) as K11
    by (vm_compute; reflexivity).
  assert (kw !! "bloom_alignment_score"
          = Some (VInt (bloom_alignment_score scores))) as K12
    by (vm_compute; reflexivity).
  assert (kw !! "people_first_language_score"
          = Some (VInt (people_first_language_score scores))) as K13
    by (vm_compute; reflexivity).
  assert (kw !! "gates" = Some (VGates gates)) as K14
    by (vm_compute; reflexivity).
  assert (kw !! "telemetry" = Some (VTelemetry telemetry)) as K15
    by (vm_compute; reflexivity).
  assert (kw !! "issues" = Some (VIssues issues)) as K16
    by (vm_compute; reflexivity).
  assert (kw !! "strengths" = Some (VStrList strengths)) as K17
    by (vm_compute; reflexivity).
  assert (kw !! "suggestions" = Some (VStrList suggestions)) as K18
    by (vm_compute; reflexivity).
  assert (kw !! "passes_quality" = Some (VBool false)) as K19
    by (vm_compute; reflexivity).
  assert (kw !! "validated_at"
          = Some (unparse (optional_t str_t) validated_at)) as K20
    by (vm_compute; reflexivity).
  assert (kw !! "validator_version" = None) as K21
    by (vm_compute; reflexivity).
  clearbody kw. eexists. apply model_init_Valid.
  cbn [model_fields QualityReport].
  accept_supplied K1.
  eapply validate_strict_step.
  { eapply field_accept; [exact K2| |reflexivity|reflexivity].
    cbn. rewrite bool_decide_eq_true_2; [reflexivity|].
    destruct Htype as [-> | ->];
      [apply list_elem_of_here | apply list_elem_of_further, list_elem_of_here]. }
  eapply validate_strict_step.
  { eapply field_accept; [exact K3|reflexivity|reflexivity|].
    apply validate_overall_score_Ok. split; [done|].
    vm_compute. reflexivity. }
  accept_int K4 B1. accept_int K5 B2. accept_int K6 B3. accept_int K7 B4.
  accept_int K8 B5. accept_int K9 B6. accept_int K10 B7.
  accept_int K11 B8. accept_int K12 B9. accept_int K13 B10.
  accept_supplied K14. accept_supplied K15. accept_supplied K16.
  accept_supplied K17. accept_supplied K18.
  eapply validate_strict_step.
  { eapply field_accept; [exact K19|reflexivity|reflexivity|].
    apply validate_passes_quality_Ok. split; [done|].
    match goal with
    | |- _ = expected_pass (data_get_int ?d _ _) _ =>
        assert (data_get_int d "overall_score" 0 = 0) as ->
          by (vm_compute; reflexivity)
    end.
    reflexivity. }
  eapply validate_strict_step.
  { eapply (field_accept _ _ _ _ _ _ _ _ _
              (from_option id (utc_stamp now) validated_at));
      [exact K20 | by destruct validated_at | reflexivity | reflexivity]. }
  eapply validate_strict_step.
  { rewrite (field_outcome_omitted _ _ _ _ _ _ _ _ K21). reflexivity. }
  reflexivity.
Qed.

(** X3: A call with every required keyword is accepted exactly when
    [item_type] is one of the two literals, [overall_score] is 0, each
    criterion score lies within its maximum, and [passes_quality] is
    false.  The sum of the criterion scores plays no part. *)
Theorem QualityReport_acceptance now item_id item_type overall_score scores
    gates telemetry issues strengths suggestions passes_quality validated_at :
  (∃ report,
     model_init (QualityReport now)
       (quality_report_kwargs item_id item_type overall_score scores gates
          telemetry issues strengths suggestions passes_quality validated_at)
     = Valid report)
  ↔ (item_type = "content" ∨ item_type = "question")%string
    ∧ overall_score = 0
    ∧ Forall2 (λ s max, 0 ≤ s ≤ max) (score_list scores) criterion_maxima
    ∧ passes_quality = false.
Proof.
  split.
  - intros [report Hvalid].
    destruct (QualityReport_item_type _ _ _ Hvalid) as (s & Hs & _ & Htype).
    destruct (QualityReport_overall_score _ _ _ Hvalid) as [Hscore _].
    destruct (QualityReport_passes_quality_false _ _ _ Hvalid) as [Hpasses _].
    pose proof (QualityReport_criterion_bounds _ _ _ Hvalid) as Hbounds.
    unfold criterion_fields, criterion_maxima in Hbounds.
    do 10 (apply Forall2_cons in Hbounds as [(? & ? & _ & ?) Hbounds]).
    vm_compute in Hs. injection Hs as <-.
    vm_compute in Hscore. injection Hscore as ->.
    vm_compute in Hpasses. injection Hpasses as ->.
    repeat match goal with
           | H : _ !! _ = Some (VInt _) |- _ =>
               vm_compute in H; injection H as <-
           end.
    split; [done|]. split; [done|]. split; [|done].
    unfold score_list, criterion_maxima.
    repeat (apply Forall2_cons; split; [done|]). apply Forall2_nil_2.
  - intros (Htype & -> & Hbounds & ->).
    by apply QualityReport_accepts.
Qed.

(** The example report is accepted once its score is 0 and its verdict
    false. *)
Lemma QualityReport_acceptance_witness :
  ∃ report,
    model_init (QualityReport "2025-11-06T10:00:00")
      (quality_report_kwargs "python-variables-01" "content" 0
         (mkScores 18 14 13 9 9 9 9 4 2 1) example_gates example_telemetry
         example_issues [] [] false None)
    = Valid report.
Proof.
  apply (proj2 (QualityReport_acceptance _ _ _ _ _ _ _ _ _ _ _ _)).
  split; [by left|]. split; [reflexivity|]. split; [|reflexivity].
  unfold score_list, criterion_maxima. cbn.
  repeat (apply Forall2_cons; split; [lia|]). apply Forall2_nil_2.
Defined.

(** * Question *)

Lemma id_char_spec c : id_char c = true ↔ lower_digit_or_dash c.
Proof.
  unfold id_char, lower_digit_or_dash, Ascii.nat_of_ascii.
  rewrite !orb_true_iff, !andb_true_iff, !Z.leb_le, Z.eqb_eq. lia.
Qed.

(** [pattern=r"^[a-z0-9-]+$"]: a non-empty string of lower-case letters,
    digits and dashes. *)
Lemma id_pattern_Ok s :
  id_pattern s = Ok () ↔
  s ≠ ""%string ∧ Forall lower_digit_or_dash (String.list_ascii_of_string s).
Proof.
  unfold id_pattern.
  destruct (String.eqb_spec s "") as [->|Hne]; cbn.
  - split; [done | by intros [? _]].
  - destruct (forallb id_char _) eqn:Hall.
    + split; [|done]. intros _. split; [done|].
      apply Forall_forall. intros c Hc. apply id_char_spec.
      rewrite List.forallb_forall in Hall. by apply Hall, list_elem_of_In.
    + split; [done|]. intros [_ Hok].
      assert (forallb id_char (String.list_ascii_of_string s) = true)
        as Hyes; [|congruence].
      apply List.forallb_forall. intros c Hc. apply id_char_spec.
      rewrite Forall_forall in Hok. by apply Hok, list_elem_of_In.
Qed.

Lemma str_length_Ok lo hi s :
  str_length lo hi s = Ok () ↔
  (lo ≤ str_len s)%nat
  ∧ match hi with Some h => (str_len s ≤ h)%nat | None => True end.
Proof.
  unfold str_length.
  destruct (Nat.leb_spec lo (str_len s)); cbn; [|split; [done | lia]].
  destruct hi as [h|]; cbn; [|done].
  destruct (Nat.leb_spec (str_len s) h); split; try done; lia.
Qed.

(** A [str] field: the keyword is a string that meets the constraint, stored
    unchanged. *)
Lemma str_field_inv M kw inst n name constraint :
  model_init M kw = Valid inst →
  model_fields M !! n
  = Some (field name str_t None no_before constraint no_validator) →
  name ∉ f_name <$> drop (S n) (model_fields M) →
  ∃ s, kw !! name = Some (VStr s) ∧ inst !! name = Some (VStr s)
       ∧ constraint s = Ok ().
Proof.
  intros Hinit Hn Hlater.
  destruct (model_init_field _ _ _ n _ Hinit Hn Hlater)
    as (data & v & _ & Hf & Hv & _).
  apply field_outcome_Ok in Hf
    as [(_ & d & [=] & _)|(raw & s & y & Hkw & Hparse & Hc & [= <-] & ->)].
  destruct raw; try done. cbn in Hparse. simplify_eq. by exists s.
Qed.

(** X6: Every constructed question has identifiers made of lower-case letters,
    digits and dashes only, at least one character long, a text of 10 to
    500 code points and an answer of at least one code point; all four are
    stored as supplied. *)
Theorem Question_identifiers_and_text now kw question
    (Hvalid : model_init (Question now) kw = Valid question) :
  ∃ question_id concept_id question_text correct_answer,
    (kw !! "question_id" = Some (VStr question_id)
     ∧ question !! "question_id" = Some (VStr question_id)
     ∧ question_id ≠ ""%string
     ∧ Forall lower_digit_or_dash (String.list_ascii_of_string question_id))
    ∧ (kw !! "concept_id" = Some (VStr concept_id)
       ∧ question !! "concept_id" = Some (VStr concept_id)
       ∧ concept_id ≠ ""%string
       ∧ Forall lower_digit_or_dash (String.list_ascii_of_string concept_id))
    ∧ (kw !! "question_text" = Some (VStr question_text)
       ∧ question !! "question_text" = Some (VStr question_text)
       ∧ (10 ≤ str_len question_text ≤ 500)%nat)
    ∧ (kw !! "correct_answer" = Some (VStr correct_answer)
       ∧ question !! "correct_answer" = Some (VStr correct_answer)
       ∧ (1 ≤ str_len correct_answer)%nat).
Proof.
  destruct (str_field_inv _ _ _ 0%nat _ _ Hvalid eq_refl)
    as (qid & Hq1 & Hq2 & [Hq3 Hq4]%id_pattern_Ok); [names_apart|].
  destruct (str_field_inv _ _ _ 1%nat _ _ Hvalid eq_refl)
    as (cid & Hc1 & Hc2 & [Hc3 Hc4]%id_pattern_Ok); [names_apart|].
  destruct (str_field_inv _ _ _ 2%nat _ _ Hvalid eq_refl)
    as (text & Ht1 & Ht2 & [Ht3 Ht4]%str_length_Ok); [names_apart|].
  destruct (str_field_inv _ _ _ 5%nat _ _ Hvalid eq_refl)
    as (answer & Ha1 & Ha2 & [Ha3 _]%str_length_Ok); [names_apart|].
  exists qid, cid, text, answer. done.
Qed.

Lemma Question_identifiers_and_text_witness :
  model_init (Question "2025-11-06T10:00:00") example_question_kwargs
  = Valid example_question_instance
  ∧ ∃ question_id,
      example_question_kwargs !! "question_id" = Some (VStr question_id)
      ∧ question_id ≠ ""%string
      ∧ Forall lower_digit_or_dash (String.list_ascii_of_string question_id).
Proof.
  assert (model_init (Question "2025-11-06T10:00:00") example_question_kwargs
          = Valid example_question_instance) as Hvalid
    by (vm_compute; reflexivity).
  split; [exact Hvalid|].
  destruct (Question_identifiers_and_text _ _ _ Hvalid)
    as (qid & _ & _ & _ & (Hkw & _ & Hne & Hchars) & _).
  exists qid. split; [exact Hkw|]. split; [exact Hne | exact Hchars].
Defined.

(** X7: [created_at] of a constructed question: left out, it stays [None], the
    validator that would set it does not run on the default; [None] spelled
    out becomes the current time followed by "Z"; a string is kept. *)
Theorem Question_created_at now kw question
    (Hvalid : model_init (Question now) kw = Valid question) :
  (kw !! "created_at" = None ∧ question !! "created_at" = Some VNone)
  ∨ (kw !! "created_at" = Some VNone
     ∧ question !! "created_at" = Some (VStr (now +:+ "Z")))
  ∨ ∃ s, kw !! "created_at" = Some (VStr s)
         ∧ question !! "created_at" = Some (VStr s).
Proof.
  destruct (model_init_field _ _ _ 10%nat _ Hvalid eq_refl)
    as (data & v & _ & Hf & Hv & _); [names_apart|].
  apply field_outcome_Ok in Hf
    as [(Hnone & d & [= <-] & ->)
       |(raw & o & y & Hkw & Hparse & _ & [= <-] & ->)].
  - by left.
  - right. destruct raw; try done; cbn in Hparse; simplify_eq.
    + by left.
    + right. by exists s.
Qed.

Lemma Question_created_at_witness :
  model_init (Question "2025-11-06T10:00:00") example_question_kwargs
  = Valid example_question_instance
  ∧ example_question_kwargs !! "created_at" = None
  ∧ example_question_instance !! "created_at" = Some VNone.
Proof.
  assert (model_init (Question "2025-11-06T10:00:00") example_question_kwargs
          = Valid example_question_instance) as Hvalid
    by (vm_compute; reflexivity).
  split; [exact Hvalid|].
  destruct (Question_created_at _ _ _ Hvalid)
    as [Homitted | [[Hnone _] | (s & Hs & _)]].
  - exact Homitted.
  - by vm_compute in Hnone.
  - by vm_compute in Hs.
Defined.

Lemma optional_list_str_unparse (o : option (list string)) :
  parse (optional_t list_str_t) (unparse (optional_t list_str_t) o) = Some o.
Proof. by destruct o. Qed.

Lemma optional_list_str_unparse_inj (o o' : option (list string)) :
  unparse (optional_t list_str_t) o = unparse (optional_t list_str_t) o' →
  o = o'.
Proof. destruct o, o'; cbn; congruence. Qed.

(** X8: A call with every required keyword of a question is accepted exactly
    when both identifiers match the pattern, the text has 10 to 500 code
    points, the answer has at least one, and [options] is either left out
    or obeys the rule of the question type: a list of 2 to 6 entries for
    [multiple_choice], the list True, False for [true_false], [None] for
    the three other types. *)
Theorem Question_acceptance now question_id concept_id question_text
    question_type options correct_answer difficulty blooms_level :
  (∃ question,
     model_init (Question now)
       (question_kwargs question_id concept_id question_text question_type
          options correct_answer difficulty blooms_level) = Valid question)
  ↔ (question_id ≠ ""%string
     ∧ Forall lower_digit_or_dash (String.list_ascii_of_string question_id))
    ∧ (concept_id ≠ ""%string
       ∧ Forall lower_digit_or_dash (String.list_ascii_of_string concept_id))
    ∧ (10 ≤ str_len question_text ≤ 500)%nat
    ∧ (1 ≤ str_len correct_answer)%nat
    ∧ match options with
      | None => True
      | Some o =>
          match question_type with
          | MULTIPLE_CHOICE => ∃ l, o = Some l ∧ (2 ≤ length l ≤ 6)%nat
          | TRUE_FALSE => o = Some ["True"; "False"]%string
          | FILL_BLANK | CODE_OUTPUT | CODE_WRITING => o = None
          end
      end.
Proof.
  set (kw := question_kwargs _ _ _ _ _ _ _ _).
  assert (kw !! "question_id" = Some (VStr question_id)) as K1
    by (destruct options; vm_compute; reflexivity).
  assert (kw !! "concept_id" = Some (VStr concept_id)) as K2
    by (destruct options; vm_compute; reflexivity).
  assert (kw !! "question_text" = Some (VStr question_text)) as K3
    by (destruct options; vm_compute; reflexivity).
  assert (kw !! "question_type" = Some (VQuestionType question_type)) as K4
    by (destruct options; vm_compute; reflexivity).
  assert (kw !! "options" = unparse (optional_t list_str_t) <$> options) as K5
    by (destruct options; vm_compute; reflexivity).
  assert (kw !! "correct_answer" = Some (VStr correct_answer)) as K6
    by (destruct options; vm_compute; reflexivity).
  assert (kw !! "difficulty" = Some (VDifficulty difficulty)) as K7
    by (destruct options; vm_compute; reflexivity).
  assert (kw !! "blooms_level" = Some (VBlooms blooms_level)) as K8
    by (destruct options; vm_compute; reflexivity).
  assert (kw !! "explanation" = None) as K9
    by (destruct options; vm_compute; reflexivity).
  assert (kw !! "hints" = None) as K10
    by (destruct options; vm_compute; reflexivity).
  assert (kw !! "created_at" = None) as K11
    by (destruct options; vm_compute; reflexivity).
  clearbody kw. split.
  - intros [question Hvalid].
    destruct (str_field_inv _ _ _ 0%nat _ _ Hvalid eq_refl)
      as (qid & Hq & _ & [Hq1 Hq2]%id_pattern_Ok); [names_apart|].
    destruct (str_field_inv _ _ _ 1%nat _ _ Hvalid eq_refl)
      as (cid & Hc & _ & [Hc1 Hc2]%id_pattern_Ok); [names_apart|].
    destruct (str_field_inv _ _ _ 2%nat _ _ Hvalid eq_refl)
      as (text & Ht & _ & [Ht1 Ht2]%str_length_Ok); [names_apart|].
    destruct (str_field_inv _ _ _ 5%nat _ _ Hvalid eq_refl)
      as (answer & Ha & _ & [Ha1 _]%str_length_Ok); [names_apart|].
    assert (qid = question_id) as -> by congruence.
    assert (cid = concept_id) as -> by congruence.
    assert (text = question_text) as -> by congruence.
    assert (answer = correct_answer) as -> by congruence.
    do 4 (split; [done|]).
    destruct options as [o|]; [|done]. cbn in K5.
    destruct (Question_options_supplied _ _ _ _ K5 Hvalid)
      as (qt & o' & Hqt & Ho & _ & Hrule).
    assert (qt = question_type) as -> by congruence.
    by apply optional_list_str_unparse_inj in Ho as <-.
  - intros ([Hq1 Hq2] & [Hc1 Hc2] & Htext & Hanswer & Hrule).
    eexists. apply model_init_Valid. cbn [model_fields Question].
    eapply validate_strict_step.
    { eapply field_accept; [exact K1 | reflexivity | | reflexivity].
      by apply id_pattern_Ok. }
    eapply validate_strict_step.
    { eapply field_accept; [exact K2 | reflexivity | | reflexivity].
      by apply id_pattern_Ok. }
    eapply validate_strict_step.
    { eapply field_accept; [exact K3 | reflexivity | | reflexivity].
      apply str_length_Ok. lia. }
    eapply validate_strict_step.
    { eapply field_accept; [exact K4 | reflexivity | reflexivity | reflexivity]. }
    eapply (validate_strict_step _ _ _ _
              (from_option (unparse (optional_t list_str_t)) VNone options)).
    { destruct options as [o|]; cbn [from_option]; cbn in K5.
      - eapply (field_accept _ _ _ _ _ _ _ _ _ o o);
          [exact K5 | apply optional_list_str_unparse | reflexivity |].
        match goal with
        | |- validate_options _ ?d = _ =>
            assert (data_get_question_type d = Some question_type) as Hqt
              by (vm_compute; reflexivity)
        end.
        destruct question_type.
        + apply (proj2 (validate_options_multiple_choice _ _ _ Hqt)).
          split; [reflexivity | exact Hrule].
        + apply (proj2 (validate_options_true_false _ _ _ Hqt)).
          split; [reflexivity | exact Hrule].
        + apply (proj2 (validate_options_without_options _ _ _ FILL_BLANK Hqt
                          (list_elem_of_here _ _))).
          split; [reflexivity | exact Hrule].
        + apply (proj2 (validate_options_without_options _ _ _ CODE_OUTPUT Hqt
                          (list_elem_of_further _ _ _ (list_elem_of_here _ _)))).
          split; [reflexivity | exact Hrule].
        + apply (proj2 (validate_options_without_options _ _ _ CODE_WRITING Hqt
                          (list_elem_of_further _ _ _
                             (list_elem_of_further _ _ _
                                (list_elem_of_here _ _))))).
          split; [reflexivity | exact Hrule].
      - rewrite (field_outcome_omitted _ _ _ _ _ _ _ _ K5). reflexivity. }
    eapply validate_strict_step.
    { eapply field_accept; [exact K6 | reflexivity | | reflexivity].
      by apply str_length_Ok. }
    eapply validate_strict_step.
    { eapply field_accept; [exact K7 | reflexivity | reflexivity | reflexivity]. }
    eapply validate_strict_step.
    { eapply field_accept; [exact K8 | reflexivity | reflexivity | reflexivity]. }
    eapply validate_strict_step.
    { rewrite (field_outcome_omitted _ _ _ _ _ _ _ _ K9). reflexivity. }
    eapply validate_strict_step.
    { rewrite (field_outcome_omitted _ _ _ _ _ _ _ _ K10). reflexivity. }
    eapply validate_strict_step.
    { rewrite (field_outcome_omitted _ _ _ _ _ _ _ _ K11). reflexivity. }
    reflexivity.
Qed.

Lemma Question_acceptance_witness :
  ∃ question,
    model_init (Question "2025-11-06T10:00:00")
      (question_kwargs "q-tf-01" "python-variables-01"
         "A name can reference a list." TRUE_FALSE
         (Some (Some ["True"; "False"]%string)) "True" BEGINNER REMEMBER)
    = Valid question.
Proof.
  apply (proj2 (Question_acceptance _ _ _ _ _ _ _ _ _)).
  split; [split; [done|]|split; [split; [done|]|]].
  - cbn. repeat (apply Forall_cons; split;
                 [apply (proj1 (id_char_spec _)); reflexivity|]).
    apply Forall_nil_2.
  - cbn. repeat (apply Forall_cons; split;
                 [apply (proj1 (id_char_spec _)); reflexivity|]).
    apply Forall_nil_2.
  - assert (str_len "A name can reference a list." = 28%nat) as ->
      by (vm_compute; reflexivity).
    assert (str_len "True" = 4%nat) as -> by (vm_compute; reflexivity).
    split; [lia|]. split; [lia | reflexivity].
Defined.

(** * ErrorResponse *)

(** X10: [create_error_response] never fails: for every message, code and
    optional details it returns a dict with status "error", the three
    arguments as given, and the current time followed by "Z" as
    timestamp. *)
Theorem create_error_response_total now error code details :
  ∃ response,
    create_error_response now error code details = Valid response
    ∧ response !! "status" = Some (VStr "error")
    ∧ response !! "error" = Some (VStr error)
    ∧ response !! "details"
      = Some (match details with Some d => VStr d | None => VNone end)
    ∧ response !! "code" = Some (VInt code)
    ∧ response !! "timestamp" = Some (VStr (now +:+ "Z")).
Proof.
  unfold create_error_response.
  set (kw := error_response_kwargs error code details).
  assert (kw !! "status" = None) as K1 by (vm_compute; reflexivity).
  assert (kw !! "error" = Some (VStr error)) as K2 by (vm_compute; reflexivity).
  assert (kw !! "details" = Some (unparse (optional_t str_t) details)) as K3
    by (vm_compute; reflexivity).
  assert (kw !! "code" = Some (VInt code)) as K4 by (vm_compute; reflexivity).
  assert (kw !! "timestamp" = Some VNone) as K5 by (vm_compute; reflexivity).
  clearbody kw. eexists. split.
  - apply model_init_Valid. cbn [model_fields ErrorResponse].
    eapply validate_strict_step.
    { rewrite (field_outcome_omitted _ _ _ _ _ _ _ _ K1). reflexivity. }
    eapply validate_strict_step.
    { eapply field_accept; [exact K2 | reflexivity | reflexivity | reflexivity]. }
    eapply validate_strict_step.
    { eapply (field_accept _ _ _ _ _ _ _ _ _ details details);
        [exact K3 | by destruct details | reflexivity | reflexivity]. }
    eapply validate_strict_step.
    { eapply field_accept; [exact K4 | reflexivity | reflexivity | reflexivity]. }
    eapply validate_strict_step.
    { eapply field_accept; [exact K5 | reflexivity | reflexivity | reflexivity]. }
    reflexivity.
  - cbn [f_name field].
    split; [|split; [|split; [|split]]];
      repeat first [ apply lookup_insert_eq
                   | rewrite lookup_insert_ne by done ].
Qed.

(** * CodeExample *)

(** X11: [CodeExample(code=c)] is built exactly when [c] has at least 10
    code points; bytes that continue a code point do not count, so five
    two-byte letters are refused although they take 10 bytes. *)
Theorem CodeExample_acceptance code :
  ((∃ example, model_init CodeExample (code_example_kwargs code) = Valid example)
   ↔ (10 ≤ str_len code)%nat)
  ∧ str_len "ééééé" = 5%nat
  ∧ String.length "ééééé" = 10%nat
  ∧ model_init CodeExample (code_example_kwargs "ééééé")
    = ValidationError [("code", "String length out of the declared bounds")]%string.
Proof.
  split; [|by vm_compute].
  set (kw := code_example_kwargs code).
  assert (kw !! "code" = Some (VStr code)) as K1 by (vm_compute; reflexivity).
  assert (kw !! "expected_output" = None) as K2 by (vm_compute; reflexivity).
  assert (kw !! "runnable" = None) as K3 by (vm_compute; reflexivity).
  clearbody kw. split.
  - intros [example Hvalid].
    destruct (str_field_inv _ _ _ 0%nat _ _ Hvalid eq_refl)
      as (s & Hs & _ & [Hlen _]%str_length_Ok); [names_apart|].
    by assert (s = code) as -> by congruence.
  - intros Hlen. eexists. apply model_init_Valid.
    cbn [model_fields CodeExample].
    eapply validate_strict_step.
    { eapply field_accept; [exact K1 | reflexivity | | reflexivity].
      by apply str_length_Ok. }
    eapply validate_strict_step.
    { rewrite (field_outcome_omitted _ _ _ _ _ _ _ _ K2). reflexivity. }
    eapply validate_strict_step.
    { rewrite (field_outcome_omitted _ _ _ _ _ _ _ _ K3). reflexivity. }
    reflexivity.
Qed.

(** X12: The instance built from [code] alone holds the code,
    [expected_output=None] and [runnable=True], and being frozen it refuses
    the assignment to every attribute whose name does not start with an
    underscore. *)
Theorem CodeExample_defaults_and_frozen code example
    (Hvalid : model_init CodeExample (code_example_kwargs code) = Valid example) :
  example !! "code" = Some (VStr code)
  ∧ example !! "expected_output" = Some VNone
  ∧ example !! "runnable" = Some (VBool true)
  ∧ ∀ name v,
      starts_with_underscore name = false →
      model_setattr CodeExample example name v = Raised "Instance is frozen".
Proof.
  assert (code_example_kwargs code !! "code" = Some (VStr code)) as K1
    by (vm_compute; reflexivity).
  assert (code_example_kwargs code !! "expected_output" = None) as K2
    by (vm_compute; reflexivity).
  assert (code_example_kwargs code !! "runnable" = None) as K3
    by (vm_compute; reflexivity).
  split.
  { destruct (str_field_inv _ _ _ 0%nat _ _ Hvalid eq_refl)
      as (s & Hs & Hstored & _); [names_apart|].
    by assert (s = code) as -> by congruence. }
  split.
  { apply (model_init_default_stored _ _ _ 1%nat _ _ Hvalid eq_refl);
      [names_apart | reflexivity | exact K2]. }
  split.
  { apply (model_init_default_stored _ _ _ 2%nat _ _ Hvalid eq_refl);
      [names_apart | reflexivity | exact K3]. }
  intros name v Hname. by apply model_setattr_frozen.
Qed.

Lemma CodeExample_defaults_and_frozen_witness :
  model_init CodeExample (code_example_kwargs "x = 10; print(x)")
  = Valid (constructed
             (model_init CodeExample (code_example_kwargs "x = 10; print(x)")))
  ∧ constructed
      (model_init CodeExample (code_example_kwargs "x = 10; print(x)"))
      !! "runnable" = Some (VBool true).
Proof.
  assert (model_init CodeExample (code_example_kwargs "x = 10; print(x)")
          = Valid (constructed
                     (model_init CodeExample
                        (code_example_kwargs "x = 10; print(x)"))))
    as Hvalid by (vm_compute; reflexivity).
  split; [exact Hvalid|].
  exact (proj1 (proj2 (proj2 (CodeExample_defaults_and_frozen _ _ Hvalid)))).
Defined.

(** * Batch operations, continued *)

(** X13: The two option fields of a constructed request: [validation_type] is
    "full" when left out and otherwise one of the two literals, [strict] is
    true when left out and otherwise the bool supplied. *)
Theorem BatchValidationRequest_options body request
    (Hvalid : model_init BatchValidationRequest body = Valid request) :
  ((body !! "validation_type" = None
    ∧ request !! "validation_type" = Some (VStr "full"))
   ∨ ∃ s, body !! "validation_type" = Some (VStr s)
          ∧ request !! "validation_type" = Some (VStr s)
          ∧ (s = "quick" ∨ s = "full")%string)
  ∧ ((body !! "strict" = None ∧ request !! "strict" = Some (VBool true))
     ∨ ∃ b, body !! "strict" = Some (VBool b)
            ∧ request !! "strict" = Some (VBool b)).
Proof.
  split.
  - destruct (model_init_field _ _ _ 1%nat _ Hvalid eq_refl)
      as (data & v & _ & Hf & Hv & _); [names_apart|].
    apply field_outcome_Ok in Hf
      as [(Hnone & d & [= <-] & ->)
         |(raw & s & y & Hkw & Hparse & _ & [= <-] & ->)].
    + by left.
    + destruct raw; try done. cbn in Hparse.
      case_bool_decide as Hin; [|done]. simplify_eq.
      right. exists s. split; [done|]. split; [done|].
      apply elem_of_cons in Hin as [->|Hin]; [by left|].
      apply elem_of_cons in Hin as [->|Hin]; [by right|].
      by apply elem_of_nil in Hin.
  - destruct (model_init_field _ _ _ 2%nat _ Hvalid eq_refl)
      as (data & v & _ & Hf & Hv & _); [names_apart|].
    apply field_outcome_Ok in Hf
      as [(Hnone & d & [= <-] & ->)
         |(raw & b & y & Hkw & Hparse & _ & [= <-] & ->)].
    + by left.
    + destruct raw; try done. cbn in Hparse. simplify_eq.
      right. by exists b.
Qed.

Lemma BatchValidationRequest_options_witness :
  model_init BatchValidationRequest (batch_request_kwargs (question_batch 2))
  = Valid (constructed (batch_request (question_batch 2)))
  ∧ ((batch_request_kwargs (question_batch 2) !! "strict" = None
      ∧ constructed (batch_request (question_batch 2)) !! "strict"
        = Some (VBool true))
     ∨ ∃ b, batch_request_kwargs (question_batch 2) !! "strict"
            = Some (VBool b)
            ∧ constructed (batch_request (question_batch 2)) !! "strict"
              = Some (VBool b)).
Proof.
  assert (model_init BatchValidationRequest
            (batch_request_kwargs (question_batch 2))
          = Valid (constructed (batch_request (question_batch 2))))
    as Hvalid by (vm_compute; reflexivity).
  split; [exact Hvalid|].
  exact (proj2 (BatchValidationRequest_options _ _ Hvalid)).
Defined.

(** * Reference storage handler *)

(** X16: A report built by the [QualityReport] constructor is never stored:
    [store_content] answers 400 for it and the database is not changed. *)
Theorem store_content_refuses_constructed_reports now kw report db concept
    (Hvalid : model_init (QualityReport now) kw = Valid report) :
  store_content db concept report
  = HTTPException 400 "Content did not pass quality check".
Proof.
  destruct (QualityReport_passes_quality_false _ _ _ Hvalid) as [_ Hp].
  unfold store_content, report_passes_quality. by rewrite Hp.
Qed.

Lemma store_content_refuses_constructed_reports_witness :
  model_init (QualityReport "2025-11-06T10:00:00") report_sum_mismatch_kwargs
  = Valid mismatch_report_instance
  ∧ store_content ∅ example_question_instance mismatch_report_instance
    = HTTPException 400 "Content did not pass quality check".
Proof.
  assert (model_init (QualityReport "2025-11-06T10:00:00")
            report_sum_mismatch_kwargs = Valid mismatch_report_instance)
    as Hvalid by (vm_compute; reflexivity).
  split; [exact Hvalid|].
  exact (store_content_refuses_constructed_reports _ _ _ ∅
           example_question_instance Hvalid).
Defined.

(** * The verdict and the shape of the gate list *)

(** X17: The verdict depends on the set of gate results only: reordering the
    list or repeating entries does not change it, and one failed entry with
    a core name makes it false even when another entry of the same name
    has passed. *)
Theorem verdict_ignores_order_and_repeats score gates gates'
    (Hsame : ∀ gate, gate ∈ gates ↔ gate ∈ gates') :
  expected_pass score gates = expected_pass score gates'
  ∧ (∀ v data data',
       data_get_int data "overall_score" 0 = score →
       data_get_int data' "overall_score" 0 = score →
       data_get_gates data = gates → data_get_gates data' = gates' →
       validate_passes_quality v data = validate_passes_quality v data')
  ∧ (∀ gate, gate ∈ gates → gate_name gate ∈ core_gates →
       gate_passed gate = false → expected_pass score gates = false).
Proof.
  assert (gates_pass gates = gates_pass gates') as Hpass.
  { destruct (gates_pass gates) eqn:Hl, (gates_pass gates') eqn:Hl'; try done.
    - rewrite gates_pass_Forall in Hl.
      assert (gates_pass gates' = true) as Hyes; [|congruence].
      apply gates_pass_Forall. intros gate Hin. by apply Hl, Hsame.
    - rewrite gates_pass_Forall in Hl'.
      assert (gates_pass gates = true) as Hyes; [|congruence].
      apply gates_pass_Forall. intros gate Hin. by apply Hl', Hsame. }
  split; [by unfold expected_pass; rewrite Hpass|]. split.
  - intros v data data' Hs Hs' Hg Hg'.
    unfold validate_passes_quality, expected_pass.
    by rewrite Hs, Hs', Hg, Hg', Hpass.
  - intros gate Hin Hcore Hfailed.
    destruct (expected_pass score gates) eqn:Hexp; [|done].
    apply expected_pass_true in Hexp as [_ Hall].
    rewrite (Hall gate Hin Hcore) in Hfailed. done.
Qed.

Lemma verdict_ignores_order_and_repeats_witness :
  (∀ gate, gate ∈ example_gates ↔ gate ∈ reverse example_gates ++ example_gates)
  ∧ expected_pass 90 example_gates
    = expected_pass 90 (reverse example_gates ++ example_gates).
Proof.
  assert (∀ gate, gate ∈ example_gates
                  ↔ gate ∈ reverse example_gates ++ example_gates) as Hsame.
  { intros gate. rewrite elem_of_app, elem_of_reverse. tauto. }
  split; [exact Hsame|].
  exact (proj1 (verdict_ignores_order_and_repeats 90 _ _ Hsame)).
Defined.
